(** * Licensing server: seat allocation, heartbeat, release and trial gating

    A shallow embedding of [src/services/license_service.py],
    [src/services/trial_service.py] and [src/services/audit_service.py],
    together with the part of [src/db.py] they use, the body check of
    [src/middleware/validate_request.py] and the four routes of
    [src/routes/].

    Conventions of the model.
    - An instant is an integer number of milliseconds since the epoch (the
      resolution [_now_str] keeps).  Python computes with float seconds and
      multiplies by 1000; here the same comparison is made exactly on [Z].
    - The wall clock is read ad hoc by the services, several times per call.
      It is an oracle [clock : nat -> Z] (the k-th reading of the process);
      the world counts the readings made so far.
    - The relational store is a record of tables.  [seat_allocations] is a
      list of rows in the order a SELECT returns them, with an AUTO_INCREMENT
      counter; [devices] is keyed by its unique [device_id].  SQL string
      equality is taken to be exact equality.
    - A Python dict built by the services (outcomes, audit payloads) is an
      association list of JSON values, so that the presence of a key can be
      observed.
    - A request is the JSON body after the structural check of the routes
      ([device_id] present), with the client address already resolved.
    - The only store failure the services handle is that of the INSERT into
      [audit_log]; it is the only one modelled.  Every other statement
      succeeds. *)

From Stdlib Require Import ZArith Ascii String List Bool Lia DecimalString SpecFloat.
From stdpp Require Import base option list gmap strings.
Import ListNotations.

Local Open Scope Z_scope.
Local Open Scope string_scope.

(** ** Python values *)

#[warnings="-register-all"]
Inductive JVal : Type :=
  | JNull
  | JBool (b : bool)
  | JInt (n : Z)
  | JStr (s : string)
  | JTime (t : Z)                       (* an instant, rendered by isoformat() *)
  | JObj (fields : list (string * JVal)).

Definition Dict : Type := list (string * JVal).

(** [d.get(k)] *)
Fixpoint dict_get (k : string) (d : Dict) : option JVal :=
  match d with
  | [] => None
  | (k', v) :: rest => if String.eqb k k' then Some v else dict_get k rest
  end.

(** [out["allocation"].get(k)] on an outcome; [None] when either key is
    missing. *)
Definition allocation_get (k : string) (out : JVal) : option JVal :=
  match out with
  | JObj fields =>
      match dict_get "allocation" fields with
      | Some (JObj alloc) => dict_get k alloc
      | _ => None
      end
  | _ => None
  end.

Definition outcome_get (k : string) (out : JVal) : option JVal :=
  match out with
  | JObj fields => dict_get k fields
  | _ => None
  end.

(** [x or None] on an optional string: the empty string is falsy. *)
Definition or_None (x : option string) : option string :=
  match x with
  | Some s => if String.eqb s "" then None else Some s
  | None => None
  end.

(** [str(n)] for an integer. *)
Definition str (n : Z) : string := NilZero.string_of_int (Z.to_int n).

Definition jstr_opt (x : option string) : JVal :=
  match x with Some s => JStr s | None => JNull end.

(** ** Rows of the store *)

Record Entitlement : Type := {
  ent_id : Z;
  ent_org_id : string;
  ent_license_key : string;
  ent_max_seats : Z;
  ent_valid_from : option Z;
  ent_valid_until : option Z;
  ent_status : string
}.

Record SeatAllocation : Type := {
  sa_id : Z;
  sa_entitlement_id : Z;
  sa_org_id : option string;
  sa_device_id : string;
  sa_hostname : option string;
  sa_os : option string;
  sa_app_version : option string;
  sa_client_ip : option string;
  sa_allocated_at : option Z;
  sa_last_heartbeat_at : option Z;
  sa_updated_at : option Z
}.

Record Device : Type := {
  dev_org_id : option string;
  dev_first_seen_at : Z;
  dev_last_seen_at : Z;
  dev_trial_used_at : option Z;
  dev_metadata : option Dict
}.

Record AuditEvent : Type := {
  ae_action : string;
  ae_entity_type : option string;
  ae_entity_id : option string;
  ae_payload : option Dict;
  ae_client_ip : option string
}.

(** The JSON body of a request after the structural check of the routes,
    with the client address as [get_client_ip] resolves it. *)
Record Request : Type := {
  license_id : option string;
  org_id : option string;
  device_id : string;
  hostname : option string;
  os : option string;
  app_version : option string;
  client_ip : option string
}.

Record Store : Type := {
  license_entitlements : list Entitlement;
  seat_allocations : list SeatAllocation;
  seat_auto_increment : Z;
  devices : gmap string Device;
  audit_log : list AuditEvent
}.

Record World : Type := {
  store : Store;
  clock_reads : nat
}.

Definition set_seat_allocations (rows : list SeatAllocation) (next : Z) (st : Store) : Store :=
  {| license_entitlements := license_entitlements st;
     seat_allocations := rows;
     seat_auto_increment := next;
     devices := devices st;
     audit_log := audit_log st |}.

Definition set_devices (ds : gmap string Device) (st : Store) : Store :=
  {| license_entitlements := license_entitlements st;
     seat_allocations := seat_allocations st;
     seat_auto_increment := seat_auto_increment st;
     devices := ds;
     audit_log := audit_log st |}.

Definition set_audit_log (evs : list AuditEvent) (st : Store) : Store :=
  {| license_entitlements := license_entitlements st;
     seat_allocations := seat_allocations st;
     seat_auto_increment := seat_auto_increment st;
     devices := devices st;
     audit_log := evs |}.

(** ** The monad of the services: a world passed along *)

Definition M (A : Type) : Type := World -> A * World.

Definition ret {A} (a : A) : M A := fun w => (a, w).

Definition bind {A B} (c : M A) (k : A -> M B) : M B :=
  fun w => let (a, w') := c w in k a w'.

Declare Scope svc_scope.
Delimit Scope svc_scope with svc.
Notation "x <- c ;; k" := (bind c (fun x => k))
  (at level 100, c at next level, right associativity) : svc_scope.
Notation "c ;;; k" := (bind c (fun _ => k))
  (at level 100, right associativity) : svc_scope.
Local Open Scope svc_scope.

Definition gets {A} (f : Store -> A) : M A := fun w => (f (store w), w).

Definition modify (f : Store -> Store) : M unit :=
  fun w => (tt, {| store := f (store w); clock_reads := clock_reads w |}).

(** A call that may raise. *)
Inductive Raised (A : Type) : Type :=
  | Returned (a : A)
  | Exception_ (msg : string).
Arguments Returned {A} a.
Arguments Exception_ {A} msg.


(** The row written by the UPDATE of validate and heartbeat. *)
Definition refresh_row (now : Z) (h o a ip : option string) (r : SeatAllocation) : SeatAllocation :=
  {| sa_id := sa_id r;
     sa_entitlement_id := sa_entitlement_id r;
     sa_org_id := sa_org_id r;
     sa_device_id := sa_device_id r;
     sa_hostname := h;
     sa_os := o;
     sa_app_version := a;
     sa_client_ip := ip;
     sa_allocated_at := sa_allocated_at r;
     sa_last_heartbeat_at := Some now;
     sa_updated_at := Some now |}.

(** [UPDATE seat_allocations SET ... WHERE id = %s] *)
Definition update_seat_where_id (id : Z) (now : Z) (h o a ip : option string)
    (rows : list SeatAllocation) : list SeatAllocation :=
  map (fun r => if Z.eqb (sa_id r) id then refresh_row now h o a ip r else r) rows.

Definition seat_matches (entitlement_id : Z) (dev : string) (r : SeatAllocation) : bool :=
  Z.eqb (sa_entitlement_id r) entitlement_id && String.eqb (sa_device_id r) dev.

(** What a decision consists of besides its outcome: every table but the
    audit log, and the number of clock readings made. *)
Definition decision_state (w : World)
  : list Entitlement * list SeatAllocation * Z * gmap string Device * nat :=
  (license_entitlements (store w), seat_allocations (store w),
   seat_auto_increment (store w), devices (store w), clock_reads w).

(** ** A small deployment for concrete runs

    One org with a one-seat license, a second license whose validity window
    is inverted, two devices, a TTL of 600 seconds and a clock that starts at
    1000 seconds and advances one millisecond per reading. *)

Definition acme_license : Entitlement :=
  {| ent_id := 7; ent_org_id := "acme-corp"; ent_license_key := "LIC-ACME-001";
     ent_max_seats := 1; ent_valid_from := None; ent_valid_until := None;
     ent_status := "active" |}.

Definition inverted_license : Entitlement :=
  {| ent_id := 8; ent_org_id := "acme-corp"; ent_license_key := "LIC-ACME-002";
     ent_max_seats := 1; ent_valid_from := Some 5000000; ent_valid_until := Some 500000;
     ent_status := "active" |}.

Definition future_license : Entitlement :=
  {| ent_id := 9; ent_org_id := "acme-corp"; ent_license_key := "LIC-ACME-003";
     ent_max_seats := 1; ent_valid_from := Some 5000000; ent_valid_until := None;
     ent_status := "active" |}.

Definition request_of (license : string) (dev : string) : Request :=
  {| license_id := Some license; org_id := Some "acme-corp"; device_id := dev;
     hostname := Some "host-1"; os := Some "linux"; app_version := Some "dev";
     client_ip := Some "10.0.0.1" |}.

Definition seat_of (id : Z) (dev : string) (last_heartbeat_at : Z) : SeatAllocation :=
  {| sa_id := id; sa_entitlement_id := 7; sa_org_id := Some "acme-corp"; sa_device_id := dev;
     sa_hostname := None; sa_os := None; sa_app_version := None; sa_client_ip := None;
     sa_allocated_at := Some 0; sa_last_heartbeat_at := Some last_heartbeat_at;
     sa_updated_at := None |}.

Definition world_with (seats : list SeatAllocation) (ds : gmap string Device) : World :=
  {| store := {| license_entitlements := [acme_license; inverted_license; future_license];
                 seat_allocations := seats;
                 seat_auto_increment := 3;
                 devices := ds;
                 audit_log := [] |};
     clock_reads := 0 |}.

Definition wall_clock (k : nat) : Z := 1000000 + Z.of_nat k.

(** dev-A holds a row last refreshed at 0 (stale at 1000 s), dev-B one
    refreshed at 900 s (active). *)
Definition stale_A : SeatAllocation := seat_of 1 "dev-A" 0.
Definition active_A : SeatAllocation := seat_of 1 "dev-A" 900000.
Definition active_B : SeatAllocation := seat_of 2 "dev-B" 900000.

(** The license is full: its one seat is held by dev-B, dev-A's row is stale. *)
Definition full_house : World := world_with [stale_A; active_B] ∅.
Definition held_by_A : World := world_with [active_A] ∅.
Definition fresh_world : World := world_with [] ∅.

Definition trial_request : Request :=
  {| license_id := None; org_id := Some "other-org"; device_id := "dev-A";
     hostname := Some "host-1"; os := None; app_version := None; client_ip := None |}.

Definition known_device : Device :=
  {| dev_org_id := Some "acme-corp"; dev_first_seen_at := 10; dev_last_seen_at := 20;
     dev_trial_used_at := Some 10; dev_metadata := None |}.

Definition trial_world : World := world_with [] {["dev-A" := known_device]}.

Section Server.

(** Process-wide configuration ([config.py]) and the collaborators the
    services read ad hoc. *)
Variable clock : nat -> Z.
Variable HEARTBEAT_TTL_SECONDS : Z.
Variable TRIAL_DURATION_SECONDS : Z.
(** Whether the INSERT into [audit_log] goes through or raises. *)
Variable audit_log_writable : bool.

(** *** db.py, specialised to the statements the services issue *)

(** [datetime.now(timezone.utc)] *)
Definition read_clock : M Z :=
  fun w => (clock (clock_reads w),
            {| store := store w; clock_reads := S (clock_reads w) |}).

(** [SELECT ... FROM license_entitlements WHERE license_key = %s LIMIT 1] *)
Definition select_entitlement_by_key (license_key : option string) : M (option Entitlement) :=
  gets (fun st =>
    find (fun e => bool_decide (Some (ent_license_key e) = license_key))
         (license_entitlements st)).

(** [SELECT id FROM license_entitlements WHERE license_key = %s AND org_id = %s AND status = %s] *)
Definition select_entitlement_for_org (license_key org : option string) (status : option string)
  : M (option Entitlement) :=
  gets (fun st =>
    head (List.filter (fun e => bool_decide (Some (ent_license_key e) = license_key)
                        && bool_decide (Some (ent_org_id e) = org)
                        && match status with
                           | Some s => String.eqb (ent_status e) s
                           | None => true
                           end)
                 (license_entitlements st))).

(** [SELECT id, device_id, last_heartbeat_at FROM seat_allocations WHERE entitlement_id = %s] *)
Definition select_seats_of_entitlement (entitlement_id : Z) : M (list SeatAllocation) :=
  gets (fun st =>
    List.filter (fun r => Z.eqb (sa_entitlement_id r) entitlement_id) (seat_allocations st)).

(** [SELECT id, last_heartbeat_at FROM seat_allocations WHERE entitlement_id = %s AND device_id = %s] *)
Definition select_seat (entitlement_id : Z) (dev : string) : M (option SeatAllocation) :=
  gets (fun st => head (List.filter (seat_matches entitlement_id dev) (seat_allocations st))).

Definition execute_update_seat (id : Z) (now : Z) (h o a ip : option string) : M unit :=
  modify (fun st =>
    set_seat_allocations (update_seat_where_id id now h o a ip (seat_allocations st))
                         (seat_auto_increment st) st).

(** [INSERT INTO seat_allocations (...) VALUES (...)]; returns [lastrowid].
    [updated_at] is not among the inserted columns. *)
Definition execute_insert_seat (entitlement_id : Z) (org : option string) (dev : string)
    (h o a ip : option string) (allocated_at last_heartbeat_at : Z) : M Z :=
  fun w =>
    let st := store w in
    let id := seat_auto_increment st in
    let row := {| sa_id := id;
                  sa_entitlement_id := entitlement_id;
                  sa_org_id := org;
                  sa_device_id := dev;
                  sa_hostname := h;
                  sa_os := o;
                  sa_app_version := a;
                  sa_client_ip := ip;
                  sa_allocated_at := Some allocated_at;
                  sa_last_heartbeat_at := Some last_heartbeat_at;
                  sa_updated_at := None |} in
    (id, {| store := set_seat_allocations (seat_allocations st ++ [row]) (id + 1) st;
            clock_reads := clock_reads w |}).

(** [DELETE FROM seat_allocations WHERE entitlement_id = %s AND device_id = %s];
    returns [rowcount]. *)
Definition execute_delete_seat (entitlement_id : Z) (dev : string) : M Z :=
  fun w =>
    let st := store w in
    let kept := List.filter (fun r => negb (seat_matches entitlement_id dev r)) (seat_allocations st) in
    (Z.of_nat (length (seat_allocations st)) - Z.of_nat (length kept),
     {| store := set_seat_allocations kept (seat_auto_increment st) st;
        clock_reads := clock_reads w |}).

(** [INSERT INTO audit_log ...]: the one statement whose failure the
    services handle. *)
Definition execute_insert_audit (ev : AuditEvent) : M (Raised unit) :=
  fun w =>
    if audit_log_writable
    then (Returned tt,
          {| store := set_audit_log (audit_log (store w) ++ [ev]) (store w);
             clock_reads := clock_reads w |})
    else (Exception_ "audit_log insert failed", w).

(** *** audit_service.py *)

Definition get_client_ip (request : Request) : option string := client_ip request.

(** The row [audit] hands to the INSERT. *)
Definition audit_row (request : Request) (action : string) (entity_type entity_id : option string)
    (payload : Dict) : AuditEvent :=
  let client_ip := get_client_ip request in
  let payload_str := match payload with [] => None | _ => Some payload end in
  {| ae_action := action;
     ae_entity_type := or_None entity_type;
     ae_entity_id := or_None entity_id;
     ae_payload := payload_str;
     ae_client_ip := client_ip |}.

Definition audit (request : Request) (action : string) (entity_type entity_id : option string)
    (payload : Dict) : M unit :=
  r <- execute_insert_audit (audit_row request action entity_type entity_id payload) ;;
  match r with
  | Returned _ => ret tt
  | Exception_ _ => ret tt          (* logger.exception(...) *)
  end.

(** *** license_service.py *)

Definition HEARTBEAT_TTL_MS : Z := HEARTBEAT_TTL_SECONDS * 1000.

Definition _now : M Z := read_clock.

Definition _ensure_utc (dt : option Z) : option Z :=
  match dt with
  | None => None
  | Some t => Some t
  end.

Definition _now_str : M Z := _now.

Definition is_allocation_active (last_heartbeat_at : option Z) : M bool :=
  match last_heartbeat_at with
  | None => ret false
  | Some ts =>
      now <- read_clock ;;
      ret (Z.ltb (now - ts) HEARTBEAT_TTL_MS)
  end.

(** [[r for r in rows if p(r)]] for a test that reads the clock. *)
Fixpoint filterM {A} (p : A -> M bool) (rows : list A) : M (list A) :=
  match rows with
  | [] => ret []
  | r :: rest =>
      b <- p r ;;
      kept <- filterM p rest ;;
      ret (if b then r :: kept else kept)
  end.

Definition fail_with (error : string) : JVal :=
  JObj [("success", JBool false); ("error", JStr error)].

Definition validate (request : Request) : M JVal :=
  let license_key := license_id request in
  let org_id := org_id request in
  let device_id := device_id request in
  let hostname := hostname request in
  let os_name := os request in
  let app_version := app_version request in
  let client_ip := get_client_ip request in
  entitlement <- select_entitlement_by_key license_key ;;
  match entitlement with
  | None =>
      audit request "validate_fail" (Some "entitlement") None
            [("reason", JStr "license_not_found"); ("license_key", jstr_opt license_key)] ;;;
      ret (fail_with "License not found")
  | Some entitlement =>
    if negb (String.eqb (ent_status entitlement) "active") then
      audit request "validate_fail" (Some "entitlement") (Some (str (ent_id entitlement)))
            [("reason", JStr "license_inactive"); ("status", JStr (ent_status entitlement))] ;;;
      ret (fail_with "License is not active")
    else if negb (bool_decide (Some (ent_org_id entitlement) = org_id)) then
      audit request "validate_fail" (Some "entitlement") (Some (str (ent_id entitlement)))
            [("reason", JStr "org_mismatch")] ;;;
      ret (fail_with "Organization does not match license")
    else
      now <- _now ;;
      now_str <- _now_str ;;
      let valid_until := _ensure_utc (ent_valid_until entitlement) in
      let valid_from := _ensure_utc (ent_valid_from entitlement) in
      if match valid_until with Some vu => Z.ltb vu now | None => false end then
        audit request "validate_fail" (Some "entitlement") (Some (str (ent_id entitlement)))
              [("reason", JStr "license_expired")] ;;;
        ret (fail_with "License has expired")
      else if match valid_from with Some vf => Z.gtb vf now | None => false end then
        audit request "validate_fail" (Some "entitlement") (Some (str (ent_id entitlement)))
              [("reason", JStr "license_not_yet_valid")] ;;;
        ret (fail_with "License is not yet valid")
      else
        let entitlement_id := ent_id entitlement in
        active_rows <- select_seats_of_entitlement entitlement_id ;;
        active_allocations <-
          filterM (fun r => is_allocation_active (sa_last_heartbeat_at r)) active_rows ;;
        let active_count := Z.of_nat (length active_allocations) in
        let existing := find (fun r => String.eqb (sa_device_id r) device_id) active_rows in
        existing_active <-
          match existing with
          | Some r => is_allocation_active (sa_last_heartbeat_at r)
          | None => ret false
          end ;;
        match existing, existing_active with
        | Some existing, true =>
            execute_update_seat (sa_id existing) now
              (or_None hostname) (or_None os_name) (or_None app_version) client_ip ;;;
            audit request "validate_success" (Some "seat_allocation") (Some (str (sa_id existing)))
                  [("reattach", JBool true)] ;;;
            ret (JObj [("success", JBool true);
                       ("allocation", JObj [("seat_id", JStr (str (sa_id existing)));
                                            ("reattach", JBool true)])])
        | _, _ =>
          if Z.geb active_count (ent_max_seats entitlement)
             && match existing with None => true | Some _ => false end then
            audit request "validate_fail" (Some "entitlement") (Some (str entitlement_id))
                  [("reason", JStr "max_seats_exceeded"); ("active", JInt active_count);
                   ("max", JInt (ent_max_seats entitlement))] ;;;
            ret (fail_with "No seats available. Maximum active seats in use.")
          else
            match existing with
            | Some existing =>
                execute_update_seat (sa_id existing) now
                  (or_None hostname) (or_None os_name) (or_None app_version) client_ip ;;;
                audit request "validate_success" (Some "seat_allocation")
                      (Some (str (sa_id existing)))
                      [("reattach", JBool false); ("was_stale", JBool true)] ;;;
                ret (JObj [("success", JBool true);
                           ("allocation", JObj [("seat_id", JStr (str (sa_id existing)));
                                                ("reattach", JBool false)])])
            | None =>
                lastrowid <- execute_insert_seat entitlement_id org_id device_id
                               (or_None hostname) (or_None os_name) (or_None app_version)
                               client_ip now_str now_str ;;
                audit request "validate_success" (Some "seat_allocation") (Some (str lastrowid))
                      [("reattach", JBool false)] ;;;
                ret (JObj [("success", JBool true);
                           ("allocation", JObj [("seat_id", JStr (str lastrowid));
                                                ("reattach", JBool false)])])
            end
        end
  end.

Definition heartbeat (request : Request) : M JVal :=
  let license_key := license_id request in
  let org_id := org_id request in
  let device_id := device_id request in
  let hostname := hostname request in
  let os_name := os request in
  let app_version := app_version request in
  let client_ip := get_client_ip request in
  now <- _now ;;
  entitlement <- select_entitlement_for_org license_key org_id (Some "active") ;;
  match entitlement with
  | None => ret (fail_with "License not found or not active for this organization")
  | Some entitlement =>
      alloc <- select_seat (ent_id entitlement) device_id ;;
      match alloc with
      | None => ret (fail_with "No seat allocation found for this device. Call validate first.")
      | Some alloc =>
          active <- is_allocation_active (sa_last_heartbeat_at alloc) ;;
          if negb active then
            ret (fail_with "Seat allocation has expired. Call validate to reallocate.")
          else
            execute_update_seat (sa_id alloc) now
              (or_None hostname) (or_None os_name) (or_None app_version) client_ip ;;;
            audit request "heartbeat" (Some "seat_allocation") (Some (str (sa_id alloc))) [] ;;;
            ret (JObj [("success", JBool true)])
      end
  end.

Definition release (request : Request) : M JVal :=
  let license_key := license_id request in
  let org_id := org_id request in
  let device_id := device_id request in
  entitlement <- select_entitlement_for_org license_key org_id None ;;
  match entitlement with
  | None => ret (fail_with "License not found for this organization")
  | Some entitlement =>
      rowcount <- execute_delete_seat (ent_id entitlement) device_id ;;
      if Z.eqb rowcount 0 then
        ret (fail_with "No seat allocation found for this device")
      else
        audit request "release" (Some "seat_allocation") None
              [("entitlement_id", JInt (ent_id entitlement)); ("device_id", JStr device_id)] ;;;
        ret (JObj [("success", JBool true)])
  end.

(** *** trial_service.py *)

Definition TRIAL_DURATION_MS : option Z :=
  if Z.gtb TRIAL_DURATION_SECONDS 0 then Some (TRIAL_DURATION_SECONDS * 1000) else None.

(** Truthiness of [TRIAL_DURATION_MS]: neither [None] nor zero. *)
Definition trial_duration : option Z :=
  match TRIAL_DURATION_MS with
  | Some d => if Z.eqb d 0 then None else Some d
  | None => None
  end.

(** The INSERT ... ON DUPLICATE KEY UPDATE of [upsert_device]. *)
Definition execute_upsert_device (dev : string) (org : option string)
    (first_seen_at last_seen_at : Z) (trial_used_at : option Z) (metadata : option Dict)
  : M unit :=
  modify (fun st =>
    let row :=
      match devices st !! dev with
      | None =>
          {| dev_org_id := org;
             dev_first_seen_at := first_seen_at;
             dev_last_seen_at := last_seen_at;
             dev_trial_used_at := trial_used_at;
             dev_metadata := metadata |}
      | Some old =>
          {| dev_org_id := match dev_org_id old with Some o => Some o | None => org end;
             dev_first_seen_at := dev_first_seen_at old;
             dev_last_seen_at := last_seen_at;
             dev_trial_used_at :=
               match dev_trial_used_at old with Some t => Some t | None => trial_used_at end;
             dev_metadata :=
               match metadata with Some m => Some m | None => dev_metadata old end |}
      end in
    set_devices (<[dev := row]> (devices st)) st).

Definition upsert_device (device_id : string) (org_id : option string) (metadata : Dict)
    (set_trial_used : bool) : M unit :=
  now_str <- _now_str ;;
  let meta_str := match metadata with [] => None | _ => Some metadata end in
  let trial_used_at := if set_trial_used then Some now_str else None in
  execute_upsert_device device_id (or_None org_id) now_str now_str trial_used_at meta_str.

(** [SELECT ... FROM devices WHERE device_id = %s LIMIT 1] *)
Definition select_device (dev : string) : M (option Device) :=
  gets (fun st => devices st !! dev).

Definition validate_trial (request : Request) : M JVal :=
  let device_id := device_id request in
  let org_id := org_id request in
  let metadata := [("hostname", jstr_opt (hostname request));
                   ("os", jstr_opt (os request));
                   ("app_version", jstr_opt (app_version request))] in
  now_ts <- read_clock ;;
  device <- select_device device_id ;;
  match device with
  | None =>
      upsert_device device_id org_id metadata true ;;;
      audit request "trial_start" (Some "device") (Some device_id)
            [("org_id", jstr_opt org_id)] ;;;
      let expires_at :=
        match trial_duration with
        | Some d => JTime (now_ts + d)
        | None => JNull
        end in
      ret (JObj [("success", JBool true); ("trial_active", JBool true);
                 ("first_use", JBool true); ("expires_at", expires_at)])
  | Some device =>
      let trial_start_ts :=
        match dev_trial_used_at device with
        | Some t => t
        | None => dev_first_seen_at device
        end in
      if match trial_duration with
         | Some d => Z.geb (now_ts - trial_start_ts) d
         | None => false
         end then
        upsert_device device_id org_id metadata false ;;;
        audit request "trial_validate_fail" (Some "device") (Some device_id)
              [("reason", JStr "trial_expired")] ;;;
        ret (JObj [("success", JBool false); ("error", JStr "Trial has expired");
                   ("trial_active", JBool false)])
      else
        upsert_device device_id org_id metadata
          (match dev_trial_used_at device with Some _ => false | None => true end) ;;;
        let expires_at :=
          match trial_duration with
          | Some d => JTime (trial_start_ts + d)
          | None => JNull
          end in
        ret (JObj [("success", JBool true); ("trial_active", JBool true);
                   ("first_use", JBool false); ("expires_at", expires_at)])
  end.

(** *** The notions the properties are stated with *)

(** The TTL rule of the data model: active iff [now - last_heartbeat_at] is
    under the TTL; a row without a heartbeat is never active. *)
Definition active_at (now : Z) (last_heartbeat_at : option Z) : bool :=
  match last_heartbeat_at with
  | Some ts => Z.ltb (now - ts) HEARTBEAT_TTL_MS
  | None => false
  end.

Definition has_heartbeat (r : SeatAllocation) : bool :=
  match sa_last_heartbeat_at r with Some _ => true | None => false end.

(** The rows validate loads for an entitlement, and among them the row of
    the requesting device ([existing]). *)
Definition seats_of (entitlement_id : Z) (st : Store) : list SeatAllocation :=
  List.filter (fun r => Z.eqb (sa_entitlement_id r) entitlement_id) (seat_allocations st).

Definition existing_row (entitlement_id : Z) (dev : string) (st : Store) : option SeatAllocation :=
  find (fun r => String.eqb (sa_device_id r) dev) (seats_of entitlement_id st).

(** The index of the clock reading at which validate tests the requesting
    device's own row: after [_now], [_now_str] and one reading for every
    loaded row that has a heartbeat. *)
Definition own_row_reading (entitlement_id : Z) (w : World) : nat :=
  (clock_reads w + 2 + length (List.filter has_heartbeat (seats_of entitlement_id (store w))))%nat.

(** Steps 2 to 4 of validate on a found entitlement, at the instant [now]. *)
Definition entitlement_checks_pass (e : Entitlement) (request : Request) (now : Z) : bool :=
  String.eqb (ent_status e) "active"
  && bool_decide (Some (ent_org_id e) = org_id request)
  && match ent_valid_until e with Some vu => Z.leb now vu | None => true end
  && match ent_valid_from e with Some vf => Z.leb vf now | None => true end.

(** Number of rows of an entitlement that are active at the instant [t]. *)
Definition active_count_at (t : Z) (entitlement_id : Z) (rows : list SeatAllocation) : Z :=
  Z.of_nat (length (List.filter
    (fun r => Z.eqb (sa_entitlement_id r) entitlement_id && active_at t (sa_last_heartbeat_at r))
    rows)).

(** The device row an upsert leaves for the key it is given. *)
Definition upserted_row (old : option Device) (org : option string) (now_str : Z)
    (metadata : Dict) (set_trial_used : bool) : Device :=
  match old with
  | None =>
      {| dev_org_id := or_None org;
         dev_first_seen_at := now_str;
         dev_last_seen_at := now_str;
         dev_trial_used_at := if set_trial_used then Some now_str else None;
         dev_metadata := match metadata with [] => None | _ => Some metadata end |}
  | Some old =>
      {| dev_org_id := match dev_org_id old with Some o => Some o | None => or_None org end;
         dev_first_seen_at := dev_first_seen_at old;
         dev_last_seen_at := now_str;
         dev_trial_used_at :=
           match dev_trial_used_at old with
           | Some t => Some t
           | None => if set_trial_used then Some now_str else None
           end;
         dev_metadata :=
           match metadata with [] => dev_metadata old | _ => Some metadata end |}
  end.



(** *** Notions for the remaining branches *)

(** A clock that never runs backwards. *)
Definition clock_monotone : Prop :=
  forall i j : nat, (i <= j)%nat -> clock i <= clock j.

(** The row the INSERT of validate creates. *)
Definition new_seat_row (id entitlement_id : Z) (request : Request) (now_str : Z)
  : SeatAllocation :=
  {| sa_id := id;
     sa_entitlement_id := entitlement_id;
     sa_org_id := org_id request;
     sa_device_id := device_id request;
     sa_hostname := or_None (hostname request);
     sa_os := or_None (os request);
     sa_app_version := or_None (app_version request);
     sa_client_ip := get_client_ip request;
     sa_allocated_at := Some now_str;
     sa_last_heartbeat_at := Some now_str;
     sa_updated_at := None |}.

(** The predicates of the two entitlement lookups of heartbeat and release. *)
Definition entitlement_for_org (request : Request) (e : Entitlement) : Prop :=
  Some (ent_license_key e) = license_id request /\ Some (ent_org_id e) = org_id request.

Definition active_entitlement_for_org (request : Request) (e : Entitlement) : Prop :=
  entitlement_for_org request e /\ ent_status e = "active".

(** The world in which every entitlement row [e] reads [g e]. *)
Definition with_entitlements (g : Entitlement -> Entitlement) (w : World) : World :=
  {| store := {| license_entitlements := map g (license_entitlements (store w));
                 seat_allocations := seat_allocations (store w);
                 seat_auto_increment := seat_auto_increment (store w);
                 devices := devices (store w);
                 audit_log := audit_log (store w) |};
     clock_reads := clock_reads w |}.

(** Whether an outcome says [success: True]. *)
Definition succeeded (out : JVal) : bool :=
  match outcome_get "success" out with
  | Some (JBool true) => true
  | _ => false
  end.

(** The instant a trial is counted from: [trial_used_at], or [first_seen_at]
    while that is null. *)
Definition trial_start (device : Device) : Z :=
  match dev_trial_used_at device with
  | Some t => t
  | None => dev_first_seen_at device
  end.


Definition trial_expired_outcome : JVal :=
  JObj [("success", JBool false); ("error", JStr "Trial has expired");
        ("trial_active", JBool false)].

(** *** audit_service.py: resolving the client address

    [get_client_ip] on the two values it reads from the request: the
    X-Forwarded-For header and the socket address.  A WSGI header value is a
    string of Latin-1 characters, one per [ascii]. *)

(** [c.isspace()] on a Latin-1 character. *)
Definition py_isspace (c : Ascii.ascii) : bool :=
  let n := Ascii.nat_of_ascii c in
  ((9 <=? n) && (n <=? 13) || (28 <=? n) && (n <=? 32) || (n =? 133) || (n =? 160))%nat.

(** [s.lstrip()], [s.rstrip()], [s.strip()] *)
Fixpoint lstrip (s : string) : string :=
  match s with
  | String c rest => if py_isspace c then lstrip rest else s
  | EmptyString => EmptyString
  end.

Fixpoint rstrip (s : string) : string :=
  match s with
  | String c rest =>
      match rstrip rest with
      | EmptyString => if py_isspace c then EmptyString else String c EmptyString
      | kept => String c kept
      end
  | EmptyString => EmptyString
  end.

Definition strip (s : string) : string := rstrip (lstrip s).

(** [s.split(",")[0]] *)
Fixpoint before_comma (s : string) : string :=
  match s with
  | String c rest => if Ascii.eqb c ","%char then EmptyString else String c (before_comma rest)
  | EmptyString => EmptyString
  end.

(** The last character of a string, and whether it holds a comma. *)
Fixpoint last_char (s : string) : option Ascii.ascii :=
  match s with
  | EmptyString => None
  | String c EmptyString => Some c
  | String _ rest => last_char rest
  end.

Fixpoint has_comma (s : string) : bool :=
  match s with
  | EmptyString => false
  | String c rest => Ascii.eqb c ","%char || has_comma rest
  end.

Definition get_client_ip_from (forwarded remote_addr : option string) : option string :=
  match or_None forwarded with
  | Some forwarded =>
      let first := strip (before_comma forwarded) in
      if String.eqb first "" then or_None remote_addr else Some first
  | None => or_None remote_addr
  end.

(** *** middleware/validate_request.py and the routes

    The value [request.get_json()] returns for a body that parses: Python's
    view of a JSON document. *)

#[warnings="-register-all"]
Inductive PyVal : Type :=
  | PNone
  | PBool (b : bool)
  | PInt (n : Z)
  | PFloat (x : spec_float)
  | PStr (s : string)
  | PList (items : list PyVal)
  | PDict (fields : list (string * PyVal)).

(** Truthiness: [bool(v)]. *)
Definition truthy (v : PyVal) : bool :=
  match v with
  | PNone => false
  | PBool b => b
  | PInt n => negb (Z.eqb n 0)
  | PFloat (S754_zero _) => false
  | PFloat _ => true
  | PStr s => negb (String.eqb s "")
  | PList items => match items with [] => false | _ => true end
  | PDict fields => match fields with [] => false | _ => true end
  end.

(** [data.get(k)] on a parsed object. *)
Fixpoint py_get (k : string) (data : list (string * PyVal)) : option PyVal :=
  match data with
  | [] => None
  | (k', v) :: rest => if String.eqb k k' then Some v else py_get k rest
  end.

(** [not data.get(f)] *)
Definition field_missing (data : list (string * PyVal)) (f : string) : bool :=
  match py_get f data with
  | Some v => negb (truthy v)
  | None => true
  end.

(** What the middleware and the routes read from the HTTP request. *)
Record HttpRequest : Type := {
  http_is_json : bool;
  http_json : PyVal;
  http_forwarded_for : option string;
  http_remote_addr : option string
}.

Definition REQUIRED_LICENSE_FIELDS : list string := ["license_id"; "org_id"; "device_id"].
Definition REQUIRED_TRIAL_FIELDS : list string := ["device_id"].

(** Returns [None] for [(None, None)], else the response and its status. *)
Definition validate_body (required_fields : list string) (http : HttpRequest)
  : option (JVal * Z) :=
  if negb (http_is_json http) then
    Some (fail_with "Invalid or missing JSON body", 400)
  else
    match http_json http with
    | PDict data =>
        let missing := List.filter (field_missing data) required_fields in
        match missing with
        | [] => None
        | _ => Some (fail_with ("Missing required fields: " ++ String.concat ", " missing), 400)
        end
    | _ => Some (fail_with "Invalid or missing JSON body", 400)
    end.

Definition validate_license_request (http : HttpRequest) : option (JVal * Z) :=
  validate_body REQUIRED_LICENSE_FIELDS http.

Definition validate_trial_request (http : HttpRequest) : option (JVal * Z) :=
  validate_body REQUIRED_TRIAL_FIELDS http.

(** The request as the services read it, for a body whose fields are strings
    (other JSON values reach the SQL driver and are outside this model). *)
Definition py_str (v : option PyVal) : option string :=
  match v with
  | Some (PStr s) => Some s
  | _ => None
  end.

Definition request_of_http (data : list (string * PyVal)) (http : HttpRequest) : Request :=
  {| license_id := py_str (py_get "license_id" data);
     org_id := py_str (py_get "org_id" data);
     device_id := match py_str (py_get "device_id" data) with Some s => s | None => "" end;
     hostname := py_str (py_get "hostname" data);
     os := py_str (py_get "os" data);
     app_version := py_str (py_get "app_version" data);
     client_ip := get_client_ip_from (http_forwarded_for http) (http_remote_addr http) |}.

(** Truthiness of [result.get("success")] on an outcome. *)
Definition result_success (result : JVal) : bool :=
  match outcome_get "success" result with
  | Some (JBool b) => b
  | Some (JInt n) => negb (Z.eqb n 0)
  | Some (JStr s) => negb (String.eqb s "")
  | Some (JObj fields) => match fields with [] => false | _ => true end
  | Some (JTime _) => true
  | Some JNull | None => false
  end.

(** A service call inside the [try] of a route.  The services of this model
    raise nothing of their own. *)
Definition returning {A} (c : M A) : M (Raised A) :=
  a <- c ;; ret (Returned a).

(** The shape shared by the four routes: body check, then inside the [try]
    the service call on [request.get_json() or {}], answered with status [200]
    on success and [failure_status] otherwise; an exception is answered with
    status [500].  A body that is not an object is stopped by the check, so
    its branch here is not reached through the routes. *)
Definition route (check : HttpRequest -> option (JVal * Z))
    (service : Request -> M (Raised JVal)) (failure_status : Z) (http : HttpRequest)
  : M (JVal * Z) :=
  match check http with
  | Some (err, status) => ret (err, status)
  | None =>
      r <- match http_json http with
           | PDict data => service (request_of_http data http)
           | other =>
               if truthy other then ret (Exception_ "AttributeError")
               else service (request_of_http [] http)
           end ;;
      match r with
      | Returned result =>
          ret (result, if result_success result then 200 else failure_status)
      | Exception_ _ => ret (fail_with "Internal server error", 500)
      end
  end.

Definition license_validate_route : HttpRequest -> M (JVal * Z) :=
  route validate_license_request (fun request => returning (validate request)) 403.
Definition license_heartbeat_route : HttpRequest -> M (JVal * Z) :=
  route validate_license_request (fun request => returning (heartbeat request)) 403.
Definition license_release_route : HttpRequest -> M (JVal * Z) :=
  route validate_license_request (fun request => returning (release request)) 404.
Definition trial_validate_route : HttpRequest -> M (JVal * Z) :=
  route validate_trial_request (fun request => returning (validate_trial request)) 403.

(** The bodies the model of the services covers: each field a service reads
    is a string, null or absent. *)
Definition fields_are_strings (data : list (string * PyVal)) : bool :=
  forallb (fun k => match py_get k data with
                    | Some (PStr _) | Some PNone | None => true
                    | Some _ => false
                    end)
          ["license_id"; "org_id"; "device_id"; "hostname"; "os"; "app_version"].

(** *** More of the deployment, for the concrete runs of the remaining
    branches *)

Definition suspended_license : Entitlement :=
  {| ent_id := 10; ent_org_id := "acme-corp"; ent_license_key := "LIC-ACME-004";
     ent_max_seats := 5; ent_valid_from := None; ent_valid_until := None;
     ent_status := "suspended" |}.

Definition request_as (license org dev : string) : Request :=
  {| license_id := Some license; org_id := Some org; device_id := dev;
     hostname := None; os := None; app_version := None; client_ip := None |}.

Definition office_world : World :=
  {| store := {| license_entitlements := [acme_license; suspended_license];
                 seat_allocations := [active_A];
                 seat_auto_increment := 2;
                 devices := ∅;
                 audit_log := [] |};
     clock_reads := 0 |}.

(** Every license suspended, with an inverted validity window. *)
Definition lapse (e : Entitlement) : Entitlement :=
  {| ent_id := ent_id e; ent_org_id := ent_org_id e; ent_license_key := ent_license_key e;
     ent_max_seats := ent_max_seats e; ent_valid_from := Some 5000000;
     ent_valid_until := Some 500000; ent_status := "suspended" |}.

(** Every license with an inverted validity window, status kept. *)
Definition rewindow (e : Entitlement) : Entitlement :=
  {| ent_id := ent_id e; ent_org_id := ent_org_id e; ent_license_key := ent_license_key e;
     ent_max_seats := ent_max_seats e; ent_valid_from := Some 5000000;
     ent_valid_until := Some 500000; ent_status := ent_status e |}.

Definition post (body : PyVal) : HttpRequest :=
  {| http_is_json := true; http_json := body;
     http_forwarded_for := Some "203.0.113.7, 10.0.0.2"; http_remote_addr := Some "10.0.0.2" |}.

Definition good_body : PyVal :=
  PDict [("license_id", PStr "LIC-ACME-001"); ("org_id", PStr "acme-corp");
         ("device_id", PStr "dev-A"); ("hostname", PNone)].

(** A body whose [device_id] is the number 0 and whose [org_id] is empty. *)
Definition sloppy_body : PyVal :=
  PDict [("license_id", PStr "LIC-ACME-001"); ("org_id", PStr ""); ("device_id", PInt 0)].

(** ** Running the services *)

Example str_renders_decimal : str 0 = "0" /\ str 305 = "305" /\ str (-12) = "-12".
Proof. repeat split; reflexivity. Qed.

Lemma bind_run {A B} (c : M A) (k : A -> M B) (w : World) :
  bind c k w = k (fst (c w)) (snd (c w)).
Proof. unfold bind. destruct (c w); reflexivity. Qed.

Lemma world_eta (w : World) :
  {| store := store w; clock_reads := clock_reads w |} = w.
Proof. destruct w; reflexivity. Qed.

Lemma store_eta (st : Store) :
  set_seat_allocations (seat_allocations st) (seat_auto_increment st) st = st.
Proof. destruct st; reflexivity. Qed.

Lemma is_allocation_active_run (hb : option Z) (w : World) :
  is_allocation_active hb w =
  (active_at (clock (clock_reads w)) hb,
   {| store := store w;
      clock_reads := (clock_reads w + match hb with Some _ => 1 | None => 0 end)%nat |}).
Proof.
  destruct hb as [ts|]; cbn.
  - unfold bind, read_clock, ret. cbn. do 3 f_equal. lia.
  - unfold ret. rewrite Nat.add_0_r, world_eta. reflexivity.
Qed.

Lemma filterM_active_run (rows : list SeatAllocation) (w : World) :
  exists kept,
    filterM (fun r => is_allocation_active (sa_last_heartbeat_at r)) rows w =
    (kept, {| store := store w;
              clock_reads := (clock_reads w + length (List.filter has_heartbeat rows))%nat |}).
Proof.
  revert w. induction rows as [|r rows IH]; intros w.
  - exists []. cbn. unfold ret. rewrite Nat.add_0_r, world_eta. reflexivity.
  - cbn [filterM]. rewrite bind_run, is_allocation_active_run. cbn [fst snd].
    rewrite bind_run.
    match goal with |- context [filterM _ rows ?w1] => destruct (IH w1) as [kept Hk] end.
    rewrite Hk. cbn [fst snd store clock_reads].
    eexists. unfold ret. apply f_equal. apply f_equal.
    cbn [List.filter]. unfold has_heartbeat at 2.
    destruct (sa_last_heartbeat_at r); cbn [length]; lia.
Qed.

Lemma audit_run (request : Request) (action : string) (entity_type entity_id : option string)
    (payload : Dict) (w : World) :
  audit request action entity_type entity_id payload w =
  (tt, {| store := set_audit_log
                     (audit_log (store w) ++
                      if audit_log_writable
                      then [audit_row request action entity_type entity_id payload]
                      else [])
                     (store w);
          clock_reads := clock_reads w |}).
Proof.
  unfold audit. rewrite bind_run. unfold execute_insert_audit.
  destruct audit_log_writable; cbn [fst snd ret]; [reflexivity|].
  rewrite app_nil_r. destruct w as [[] ?]; reflexivity.
Qed.

Lemma filter_none_id {A} (p : A -> bool) (l : list A) :
  List.filter p l = [] -> List.filter (fun x => negb (p x)) l = l.
Proof.
  induction l as [|x l IH]; cbn; [reflexivity|].
  destruct (p x); cbn; [discriminate|]. intros H. f_equal. auto.
Qed.

Lemma filter_negb_idem {A} (p : A -> bool) (l : list A) :
  List.filter p (List.filter (fun x => negb (p x)) l) = [].
Proof.
  induction l as [|x l IH]; cbn; [reflexivity|].
  destruct (p x) eqn:Hp; cbn; [assumption|]. rewrite Hp. assumption.
Qed.

(** ** The TTL rule *)


(** ** Heartbeat *)


(** ** Release *)

Lemma release_run (request : Request) (w : World) (e : Entitlement) :
  fst (select_entitlement_for_org (license_id request) (org_id request) None w) = Some e ->
  let kept := List.filter (fun r => negb (seat_matches (ent_id e) (device_id request) r))
                          (seat_allocations (store w)) in
  let w1 := {| store := set_seat_allocations kept (seat_auto_increment (store w)) (store w);
               clock_reads := clock_reads w |} in
  release request w =
  if Z.eqb (Z.of_nat (length (seat_allocations (store w))) - Z.of_nat (length kept)) 0
  then (fail_with "No seat allocation found for this device", w1)
  else (JObj [("success", JBool true)],
        snd (audit request "release" (Some "seat_allocation") None
               [("entitlement_id", JInt (ent_id e)); ("device_id", JStr (device_id request))] w1)).
Proof.
  intros He. cbn zeta. unfold release. rewrite bind_run.
  unfold select_entitlement_for_org, gets in He |- *. cbn [fst snd store] in He |- *.
  rewrite He. rewrite bind_run. unfold execute_delete_seat. cbn [fst snd].
  destruct (Z.eqb _ 0); [reflexivity|]. rewrite bind_run. reflexivity.
Qed.

(** C7. With the entitlement found and no row for the device, release returns
    NoAllocationFound and leaves the world as it was; this is what a second
    release after a successful one meets. *)
Theorem release_without_allocation (request : Request) (w : World) (e : Entitlement) :
  fst (select_entitlement_for_org (license_id request) (org_id request) None w) = Some e ->
  (fst (select_seat (ent_id e) (device_id request) w) = None ->
     release request w = (fail_with "No seat allocation found for this device", w)) /\
  (outcome_get "success" (fst (release request w)) = Some (JBool true) ->
     release request (snd (release request w)) =
     (fail_with "No seat allocation found for this device", snd (release request w))).
Proof.
  intros He.
  assert (Hgen : forall w0,
    fst (select_entitlement_for_org (license_id request) (org_id request) None w0) = Some e ->
    List.filter (seat_matches (ent_id e) (device_id request)) (seat_allocations (store w0)) = [] ->
    release request w0 = (fail_with "No seat allocation found for this device", w0)).
  { intros w0 He0 Hnone. rewrite (release_run _ _ _ He0).
    rewrite (filter_none_id _ _ Hnone), Z.sub_diag, store_eta, world_eta. reflexivity. }
  split.
  - intros Hnone. apply Hgen; [assumption|].
    unfold select_seat, gets in Hnone. cbn [fst store] in Hnone.
    destruct (List.filter _ _); [reflexivity|discriminate].
  - rewrite (release_run _ _ _ He).
    destruct (Z.eqb _ 0); [cbn; discriminate|]. intros _.
    rewrite audit_run. cbn [fst snd store clock_reads]. apply Hgen.
    + exact He.
    + cbn [store seat_allocations set_audit_log set_seat_allocations].
      apply filter_negb_idem.
Qed.

(** ** The entitlement checks of validate *)

Lemma validate_run (request : Request) (w : World) (e : Entitlement) :
  fst (select_entitlement_by_key (license_id request) w) = Some e ->
  ent_status e = "active" ->
  Some (ent_org_id e) = org_id request ->
  let now := clock (clock_reads w) in
  let now_str := clock (S (clock_reads w)) in
  let h := or_None (hostname request) in
  let o := or_None (os request) in
  let a := or_None (app_version request) in
  let ip := get_client_ip request in
  let w2 := {| store := store w; clock_reads := S (S (clock_reads w)) |} in
  let w3 := {| store := store w; clock_reads := own_row_reading (ent_id e) w |} in
  let kept := fst (filterM (fun r => is_allocation_active (sa_last_heartbeat_at r))
                           (seats_of (ent_id e) (store w)) w2) in
  validate request w =
  if match ent_valid_until e with Some vu => Z.ltb vu now | None => false end then
    (fail_with "License has expired",
     snd (audit request "validate_fail" (Some "entitlement") (Some (str (ent_id e)))
            [("reason", JStr "license_expired")] w2))
  else if match ent_valid_from e with Some vf => Z.gtb vf now | None => false end then
    (fail_with "License is not yet valid",
     snd (audit request "validate_fail" (Some "entitlement") (Some (str (ent_id e)))
            [("reason", JStr "license_not_yet_valid")] w2))
  else
    match existing_row (ent_id e) (device_id request) (store w) with
    | Some r =>
        let w4 :=
          {| store := set_seat_allocations
                        (update_seat_where_id (sa_id r) now h o a ip (seat_allocations (store w)))
                        (seat_auto_increment (store w)) (store w);
             clock_reads := (own_row_reading (ent_id e) w +
                             match sa_last_heartbeat_at r with Some _ => 1 | None => 0 end)%nat |} in
        if active_at (clock (own_row_reading (ent_id e) w)) (sa_last_heartbeat_at r) then
          (JObj [("success", JBool true);
                 ("allocation", JObj [("seat_id", JStr (str (sa_id r)));
                                      ("reattach", JBool true)])],
           snd (audit request "validate_success" (Some "seat_allocation") (Some (str (sa_id r)))
                  [("reattach", JBool true)] w4))
        else
          (JObj [("success", JBool true);
                 ("allocation", JObj [("seat_id", JStr (str (sa_id r)));
                                      ("reattach", JBool false)])],
           snd (audit request "validate_success" (Some "seat_allocation") (Some (str (sa_id r)))
                  [("reattach", JBool false); ("was_stale", JBool true)] w4))
    | None =>
        if Z.geb (Z.of_nat (length kept)) (ent_max_seats e) then
          (fail_with "No seats available. Maximum active seats in use.",
           snd (audit request "validate_fail" (Some "entitlement") (Some (str (ent_id e)))
                  [("reason", JStr "max_seats_exceeded"); ("active", JInt (Z.of_nat (length kept)));
                   ("max", JInt (ent_max_seats e))] w3))
        else
          let id := seat_auto_increment (store w) in
          (JObj [("success", JBool true);
                 ("allocation", JObj [("seat_id", JStr (str id)); ("reattach", JBool false)])],
           snd (audit request "validate_success" (Some "seat_allocation") (Some (str id))
                  [("reattach", JBool false)]
                  (snd (execute_insert_seat (ent_id e) (org_id request) (device_id request)
                          h o a ip now_str now_str w3))))
    end.
Proof.
  intros He Hst Horg. cbn zeta. unfold validate. rewrite bind_run.
  unfold select_entitlement_by_key, gets in He |- *. cbn [fst snd store] in He |- *.
  rewrite He, Hst. cbn [String.eqb Ascii.eqb Bool.eqb negb].
  rewrite bool_decide_eq_true_2 by assumption. cbn [negb].
  rewrite bind_run. cbn [_now _now_str read_clock fst snd]. rewrite bind_run.
  cbn [_now _now_str read_clock fst snd store clock_reads].
  unfold _ensure_utc.
  destruct (ent_valid_until e) as [vu|]; [destruct (Z.ltb vu _)|];
    try (rewrite bind_run; reflexivity);
    (destruct (ent_valid_from e) as [vf|]; [destruct (Z.gtb vf _)|];
     try (rewrite bind_run; reflexivity)).
  all: rewrite bind_run; unfold select_seats_of_entitlement, gets; cbn [fst snd store];
    fold (seats_of (ent_id e) (store w));
    rewrite bind_run;
    destruct (filterM_active_run (seats_of (ent_id e) (store w))
                {| store := store w; clock_reads := S (S (clock_reads w)) |}) as [kept Hk];
    rewrite Hk; cbn [fst snd store clock_reads];
    fold (existing_row (ent_id e) (device_id request) (store w));
    replace (S (S (clock_reads w)) +
             length (List.filter has_heartbeat (seats_of (ent_id e) (store w))))%nat
      with (own_row_reading (ent_id e) w) by (unfold own_row_reading; lia);
    rewrite bind_run;
    destruct (existing_row (ent_id e) (device_id request) (store w)) as [r|];
    [ rewrite is_allocation_active_run; cbn [fst snd store clock_reads];
      destruct (active_at _ (sa_last_heartbeat_at r));
      [ rewrite !bind_run; reflexivity
      | rewrite andb_false_r; rewrite !bind_run; reflexivity ]
    | cbn [ret fst snd]; rewrite andb_true_r;
      destruct (Z.geb _ _); rewrite !bind_run; reflexivity ].
Qed.

(** What [entitlement_checks_pass] says about the four tests of validate. *)
Lemma entitlement_checks_pass_inv (e : Entitlement) (request : Request) (now : Z) :
  entitlement_checks_pass e request now = true ->
  ent_status e = "active" /\ Some (ent_org_id e) = org_id request /\
  match ent_valid_until e with Some vu => Z.ltb vu now | None => false end = false /\
  match ent_valid_from e with Some vf => Z.gtb vf now | None => false end = false.
Proof.
  unfold entitlement_checks_pass. rewrite !andb_true_iff.
  intros [[[Hst Horg] Hvu] Hvf].
  apply String.eqb_eq in Hst. apply bool_decide_eq_true_1 in Horg.
  repeat split; try assumption.
  - destruct (ent_valid_until e); [lia|reflexivity].
  - destruct (ent_valid_from e); [lia|reflexivity].
Qed.

Lemma validate_refused_run (request : Request) (w : World) :
  match fst (select_entitlement_by_key (license_id request) w) with
  | None =>
      validate request w =
      (fail_with "License not found",
       snd (audit request "validate_fail" (Some "entitlement") None
              [("reason", JStr "license_not_found");
               ("license_key", jstr_opt (license_id request))] w))
  | Some e =>
      if negb (String.eqb (ent_status e) "active") then
        validate request w =
        (fail_with "License is not active",
         snd (audit request "validate_fail" (Some "entitlement") (Some (str (ent_id e)))
                [("reason", JStr "license_inactive"); ("status", JStr (ent_status e))] w))
      else if negb (bool_decide (Some (ent_org_id e) = org_id request)) then
        validate request w =
        (fail_with "Organization does not match license",
         snd (audit request "validate_fail" (Some "entitlement") (Some (str (ent_id e)))
                [("reason", JStr "org_mismatch")] w))
      else ent_status e = "active" /\ Some (ent_org_id e) = org_id request
  end.
Proof.
  unfold validate. rewrite !bind_run.
  destruct (fst (select_entitlement_by_key (license_id request) w)) as [e|].
  - destruct (String.eqb (ent_status e) "active") eqn:Hst; cbn [negb].
    + destruct (bool_decide (Some (ent_org_id e) = org_id request)) eqn:Horg; cbn [negb].
      * apply String.eqb_eq in Hst. apply bool_decide_eq_true_1 in Horg. split; assumption.
      * rewrite bind_run. reflexivity.
    + rewrite bind_run. reflexivity.
  - rewrite bind_run. reflexivity.
Qed.






(** C2 (as the code has it). The expiry test comes first: an entitlement that
    passes the existence, status and org checks and whose [valid_from] is
    after the current time is refused as not yet valid, unless [valid_until]
    is set and before the current time, in which case it is refused as
    expired. *)
Theorem validate_expiry_before_not_yet_valid
    (request : Request) (w : World) (e : Entitlement) (vf : Z) :
  fst (select_entitlement_by_key (license_id request) w) = Some e ->
  ent_status e = "active" ->
  Some (ent_org_id e) = org_id request ->
  ent_valid_from e = Some vf ->
  clock (clock_reads w) < vf ->
  fst (validate request w) =
    match ent_valid_until e with
    | Some vu => if Z.ltb vu (clock (clock_reads w))
                 then fail_with "License has expired"
                 else fail_with "License is not yet valid"
    | None => fail_with "License is not yet valid"
    end
  /\ seat_allocations (store (snd (validate request w))) = seat_allocations (store w).
Proof.
  intros He Hst Horg Hvf Hlt.
  rewrite (validate_run _ _ _ He Hst Horg). rewrite Hvf.
  assert (Hgt : Z.gtb vf (clock (clock_reads w)) = true) by lia.
  rewrite Hgt. rewrite !audit_run.
  destruct (ent_valid_until e) as [vu|]; [destruct (Z.ltb vu _)|]; cbn; auto.
Qed.

(** ** Trial gate *)

Lemma trial_duration_of_config :
  trial_duration =
  if Z.gtb TRIAL_DURATION_SECONDS 0 then Some (TRIAL_DURATION_SECONDS * 1000) else None.
Proof.
  unfold trial_duration, TRIAL_DURATION_MS.
  destruct (Z.gtb TRIAL_DURATION_SECONDS 0) eqn:Hgt; [|reflexivity].
  destruct (Z.eqb_spec (TRIAL_DURATION_SECONDS * 1000) 0); [lia|reflexivity].
Qed.

Lemma upsert_device_run (dev : string) (org : option string) (metadata : Dict)
    (set_trial_used : bool) (w : World) :
  upsert_device dev org metadata set_trial_used w =
  (tt, {| store := set_devices
                     (<[dev := upserted_row (devices (store w) !! dev) org
                                 (clock (clock_reads w)) metadata set_trial_used]>
                        (devices (store w)))
                     (store w);
          clock_reads := S (clock_reads w) |}).
Proof.
  unfold upsert_device. rewrite bind_run. cbn [_now_str _now read_clock fst snd].
  unfold execute_upsert_device, modify. cbn [store clock_reads].
  do 4 f_equal. unfold upserted_row.
  destruct (devices (store w) !! dev) as [old|]; destruct metadata; reflexivity.
Qed.

(** C3 (as the code has it). The first validateTrial for an unknown device
    creates its row with [trial_used_at] set to the time of the insert whether
    or not a trial duration is configured, and returns success with
    [first_use] and [trial_active]; [expires_at] is the call's time plus the
    duration when one is configured and null otherwise. *)
Theorem validate_trial_first_use (request : Request) (w : World) :
  devices (store w) !! device_id request = None ->
  let now_ts := clock (clock_reads w) in
  let now_str := clock (S (clock_reads w)) in
  exists w' row,
    validate_trial request w =
      (JObj [("success", JBool true); ("trial_active", JBool true); ("first_use", JBool true);
             ("expires_at", if Z.gtb TRIAL_DURATION_SECONDS 0
                            then JTime (now_ts + TRIAL_DURATION_SECONDS * 1000)
                            else JNull)], w') /\
    devices (store w') !! device_id request = Some row /\
    dev_trial_used_at row = Some now_str /\
    dev_first_seen_at row = now_str /\
    dev_org_id row = or_None (org_id request) /\
    (forall d, d <> device_id request -> devices (store w') !! d = devices (store w) !! d).
Proof.
  intros Hnone. cbn zeta. unfold validate_trial. rewrite bind_run.
  cbn [read_clock fst snd]. rewrite bind_run. unfold select_device, gets.
  cbn [fst snd store]. rewrite Hnone. rewrite bind_run, upsert_device_run.
  cbn [fst snd]. rewrite bind_run, audit_run. cbn [fst snd store clock_reads devices set_devices].
  rewrite Hnone, trial_duration_of_config. unfold ret.
  eexists _, _. split.
  { destruct (Z.gtb TRIAL_DURATION_SECONDS 0); reflexivity. }
  cbn [store devices set_audit_log set_devices].
  split; [apply lookup_insert_eq|]. cbn [upserted_row dev_trial_used_at dev_first_seen_at dev_org_id].
  repeat split. intros d Hd. apply lookup_insert_ne. congruence.
Qed.

Lemma validate_trial_devices (request : Request) (w : World) :
  exists set_trial_used,
    devices (store (snd (validate_trial request w))) =
    <[device_id request :=
        upserted_row (devices (store w) !! device_id request) (org_id request)
          (clock (S (clock_reads w)))
          [("hostname", jstr_opt (hostname request)); ("os", jstr_opt (os request));
           ("app_version", jstr_opt (app_version request))]
          set_trial_used]> (devices (store w)).
Proof.
  unfold validate_trial. rewrite bind_run. cbn [read_clock fst snd].
  rewrite bind_run. unfold select_device, gets. cbn [fst snd store].
  destruct (devices (store w) !! device_id request) as [old|] eqn:Hold.
  - match goal with |- context [if ?c then _ else _] => destruct c end.
    + rewrite bind_run, upsert_device_run. cbn [fst snd]. rewrite bind_run, audit_run.
      cbn [fst snd ret store clock_reads devices set_devices set_audit_log].
      rewrite Hold. eauto.
    + rewrite bind_run, upsert_device_run.
      cbn [fst snd ret store clock_reads devices set_devices set_audit_log].
      rewrite Hold. eauto.
  - rewrite bind_run, upsert_device_run. cbn [fst snd]. rewrite bind_run, audit_run.
    cbn [fst snd ret store clock_reads devices set_devices set_audit_log].
    rewrite Hold. eauto.
Qed.

(** C8. A validateTrial call never changes a non-null [trial_used_at] nor a
    non-null [org_id] of any device row, whatever the request supplies. *)
Theorem validate_trial_first_writer_wins (request : Request) (w : World)
    (d : string) (row : Device) :
  devices (store w) !! d = Some row ->
  exists row',
    devices (store (snd (validate_trial request w))) !! d = Some row' /\
    (forall t, dev_trial_used_at row = Some t -> dev_trial_used_at row' = Some t) /\
    (forall o, dev_org_id row = Some o -> dev_org_id row' = Some o) /\
    dev_first_seen_at row' = dev_first_seen_at row.
Proof.
  intros Hrow. destruct (validate_trial_devices request w) as [flag ->].
  destruct (decide (device_id request = d)) as [->|Hne].
  - rewrite lookup_insert_eq, Hrow. eexists. split; [reflexivity|].
    cbn [upserted_row dev_trial_used_at dev_org_id dev_first_seen_at].
    repeat split.
    + intros t ->. reflexivity.
    + intros o ->. reflexivity.
  - rewrite lookup_insert_ne by assumption. exists row. auto.
Qed.

(** ** Seat allocation *)


Lemma update_seat_length (id now : Z) (h o a ip : option string) (rows : list SeatAllocation) :
  length (update_seat_where_id id now h o a ip rows) = length rows.
Proof. unfold update_seat_where_id. apply length_map. Qed.







(** ** Runs used to compare two audit sinks *)

Lemma heartbeat_run (request : Request) (w : World) :
  let w1 := {| store := store w; clock_reads := S (clock_reads w) |} in
  heartbeat request w =
  match fst (select_entitlement_for_org (license_id request) (org_id request)
               (Some "active") w) with
  | None => (fail_with "License not found or not active for this organization", w1)
  | Some e =>
      match fst (select_seat (ent_id e) (device_id request) w) with
      | None => (fail_with "No seat allocation found for this device. Call validate first.", w1)
      | Some r =>
          let reads := (S (clock_reads w) +
                        match sa_last_heartbeat_at r with Some _ => 1 | None => 0 end)%nat in
          if active_at (clock (S (clock_reads w))) (sa_last_heartbeat_at r) then
            (JObj [("success", JBool true)],
             snd (audit request "heartbeat" (Some "seat_allocation") (Some (str (sa_id r))) []
                    {| store := set_seat_allocations
                                  (update_seat_where_id (sa_id r) (clock (clock_reads w))
                                     (or_None (hostname request)) (or_None (os request))
                                     (or_None (app_version request)) (get_client_ip request)
                                     (seat_allocations (store w)))
                                  (seat_auto_increment (store w)) (store w);
                       clock_reads := reads |}))
          else
            (fail_with "Seat allocation has expired. Call validate to reallocate.",
             {| store := store w; clock_reads := reads |})
      end
  end.
Proof.
  cbn zeta. unfold heartbeat. rewrite bind_run. cbn [_now read_clock fst snd].
  rewrite bind_run. unfold select_entitlement_for_org, select_seat, gets. cbn [fst snd store].
  destruct (head (List.filter _ (license_entitlements (store w)))) as [e|]; [|reflexivity].
  rewrite bind_run. cbn [fst snd store].
  destruct (head (List.filter _ (seat_allocations (store w)))) as [r|]; [|reflexivity].
  rewrite bind_run, is_allocation_active_run. cbn [fst snd store clock_reads].
  destruct (active_at _ _); cbn [negb]; [|reflexivity].
  rewrite !bind_run. reflexivity.
Qed.

Lemma validate_trial_run (request : Request) (w : World) :
  let now_ts := clock (clock_reads w) in
  let metadata := [("hostname", jstr_opt (hostname request)); ("os", jstr_opt (os request));
                   ("app_version", jstr_opt (app_version request))] in
  let upserted flag :=
    snd (upsert_device (device_id request) (org_id request) metadata flag
           {| store := store w; clock_reads := S (clock_reads w) |}) in
  validate_trial request w =
  match devices (store w) !! device_id request with
  | None =>
      (JObj [("success", JBool true); ("trial_active", JBool true); ("first_use", JBool true);
             ("expires_at", match trial_duration with
                            | Some d => JTime (now_ts + d)
                            | None => JNull
                            end)],
       snd (audit request "trial_start" (Some "device") (Some (device_id request))
              [("org_id", jstr_opt (org_id request))] (upserted true)))
  | Some device =>
      let trial_start_ts :=
        match dev_trial_used_at device with Some t => t | None => dev_first_seen_at device end in
      if match trial_duration with
         | Some d => Z.geb (now_ts - trial_start_ts) d
         | None => false
         end then
        (JObj [("success", JBool false); ("error", JStr "Trial has expired");
               ("trial_active", JBool false)],
         snd (audit request "trial_validate_fail" (Some "device") (Some (device_id request))
                [("reason", JStr "trial_expired")] (upserted false)))
      else
        (JObj [("success", JBool true); ("trial_active", JBool true); ("first_use", JBool false);
               ("expires_at", match trial_duration with
                              | Some d => JTime (trial_start_ts + d)
                              | None => JNull
                              end)],
         upserted (match dev_trial_used_at device with Some _ => false | None => true end))
  end.
Proof.
  cbn zeta. unfold validate_trial. rewrite bind_run. cbn [read_clock fst snd].
  rewrite bind_run. unfold select_device, gets. cbn [fst snd store].
  destruct (devices (store w) !! device_id request) as [device|].
  - match goal with |- context [if ?c then _ else _] => destruct c end;
      rewrite !bind_run; reflexivity.
  - rewrite !bind_run. reflexivity.
Qed.

(** ** Validate: the branches around the seat decision *)

Lemma active_at_earlier (t1 t2 : Z) (hb : option Z) :
  t1 <= t2 -> active_at t2 hb = true -> active_at t1 hb = true.
Proof. destruct hb as [ts|]; cbn; [lia|discriminate]. Qed.

Lemma active_filter_earlier (t1 t2 : Z) (rows : list SeatAllocation) :
  t1 <= t2 ->
  (length (List.filter (fun r => active_at t2 (sa_last_heartbeat_at r)) rows) <=
   length (List.filter (fun r => active_at t1 (sa_last_heartbeat_at r)) rows))%nat.
Proof.
  intros Hle. induction rows as [|s rows IH]; cbn [List.filter]; [lia|].
  destruct (active_at t2 (sa_last_heartbeat_at s)) eqn:Hs.
  - rewrite (active_at_earlier _ _ _ Hle Hs). cbn [length]. lia.
  - destruct (active_at t1 _); cbn [length]; lia.
Qed.

(** The scan of validate counts a row at the instant it reads for it; under
    a monotone clock the count lies between the number of rows active after
    the scan and the number active before it. *)
Lemma filterM_kept_bounds (rows : list SeatAllocation) (w : World) (k : nat) :
  clock_monotone ->
  (clock_reads w + length (List.filter has_heartbeat rows) <= k)%nat ->
  let kept := fst (filterM (fun r => is_allocation_active (sa_last_heartbeat_at r)) rows w) in
  Z.of_nat (length (List.filter (fun r => active_at (clock k) (sa_last_heartbeat_at r)) rows))
    <= Z.of_nat (length kept)
    <= Z.of_nat (length (List.filter
                           (fun r => active_at (clock (clock_reads w)) (sa_last_heartbeat_at r))
                           rows)).
Proof.
  intros Hmono. revert w. induction rows as [|r rows IH]; intros w Hk; cbn zeta.
  - cbn. lia.
  - cbn [filterM]. rewrite bind_run, is_allocation_active_run. cbn [fst snd].
    rewrite bind_run. cbn [ret fst].
    set (w1 := {| store := store w;
                  clock_reads := (clock_reads w +
                                  match sa_last_heartbeat_at r with Some _ => 1 | None => 0 end)%nat |}).
    assert (Hk1 : (clock_reads w1 + length (List.filter has_heartbeat rows) <= k)%nat).
    { subst w1. cbn [clock_reads]. cbn [List.filter] in Hk. unfold has_heartbeat at 1 in Hk.
      destruct (sa_last_heartbeat_at r); cbn [length] in Hk; lia. }
    specialize (IH w1 Hk1). cbn zeta in IH.
    assert (Hup : Z.of_nat (length (List.filter
                   (fun r => active_at (clock (clock_reads w1)) (sa_last_heartbeat_at r)) rows))
                  <= Z.of_nat (length (List.filter
                   (fun r => active_at (clock (clock_reads w)) (sa_last_heartbeat_at r)) rows))).
    { apply Nat2Z.inj_le, active_filter_earlier, Hmono. subst w1. cbn. lia. }
    cbn [List.filter].
    destruct (active_at (clock (clock_reads w)) (sa_last_heartbeat_at r)) eqn:Hnow.
    + destruct (active_at (clock k) (sa_last_heartbeat_at r)); cbn [length]; lia.
    + assert (Hlater : active_at (clock k) (sa_last_heartbeat_at r) = false).
      { destruct (active_at (clock k) (sa_last_heartbeat_at r)) eqn:Hl; [|reflexivity].
        rewrite (active_at_earlier (clock (clock_reads w)) (clock k)) in Hnow;
          [discriminate|apply Hmono; lia|assumption]. }
      rewrite Hlater. lia.
Qed.

Lemma active_count_at_seats_of_filter (t eid : Z) (st : Store) :
  active_count_at t eid (seat_allocations st) =
  Z.of_nat (length (List.filter (fun r => active_at t (sa_last_heartbeat_at r))
                                (seats_of eid st))).
Proof.
  unfold active_count_at, seats_of. f_equal. f_equal.
  induction (seat_allocations st) as [|r rows IH]; cbn; [reflexivity|].
  destruct (Z.eqb (sa_entitlement_id r) eid); cbn; [|assumption].
  destruct (active_at t (sa_last_heartbeat_at r)); cbn; congruence.
Qed.

(** The count validate compares with [max_seats], bracketed by the number of
    rows active after the scan and at the call's first reading. *)
Lemma validate_active_count_bounds (e : Entitlement) (w : World) (k : nat) :
  clock_monotone ->
  (own_row_reading (ent_id e) w <= k)%nat ->
  let kept := fst (filterM (fun r => is_allocation_active (sa_last_heartbeat_at r))
                           (seats_of (ent_id e) (store w))
                           {| store := store w; clock_reads := S (S (clock_reads w)) |}) in
  active_count_at (clock k) (ent_id e) (seat_allocations (store w))
    <= Z.of_nat (length kept)
    <= active_count_at (clock (clock_reads w)) (ent_id e) (seat_allocations (store w)).
Proof.
  intros Hmono Hk. cbn zeta.
  pose proof (filterM_kept_bounds (seats_of (ent_id e) (store w))
                {| store := store w; clock_reads := S (S (clock_reads w)) |} k Hmono) as Hb.
  cbn [clock_reads] in Hb. unfold own_row_reading in Hk.
  specialize (Hb ltac:(lia)). cbn zeta in Hb.
  rewrite !active_count_at_seats_of_filter. split; [apply Hb|].
  etransitivity; [apply Hb|].
  apply Nat2Z.inj_le, active_filter_earlier, Hmono. lia.
Qed.

(** X1. An unknown license key is refused with LicenseNotFound before the
    clock is read; only the audit log can change. *)
Theorem validate_unknown_license (request : Request) (w : World) :
  (forall e, In e (license_entitlements (store w)) ->
             Some (ent_license_key e) <> license_id request) ->
  exists w',
    validate request w = (fail_with "License not found", w') /\
    decision_state w' = decision_state w /\
    audit_log (store w') =
      (audit_log (store w) ++
       if audit_log_writable
       then [audit_row request "validate_fail" (Some "entitlement") None
               [("reason", JStr "license_not_found");
                ("license_key", jstr_opt (license_id request))]]
       else [])%list.
Proof.
  intros Hnone. pose proof (validate_refused_run request w) as Href.
  assert (Hsel : fst (select_entitlement_by_key (license_id request) w) = None).
  { unfold select_entitlement_by_key, gets. cbn [fst].
    destruct (find _ _) as [e|] eqn:Hf; [|reflexivity].
    apply find_some in Hf as [Hin Hkey]. apply bool_decide_eq_true_1 in Hkey.
    destruct (Hnone e Hin Hkey). }
  rewrite Hsel in Href. rewrite Href, audit_run. eexists. split; [reflexivity|].
  split; reflexivity.
Qed.

(** X2. On a found entitlement the status is tested first and the org second,
    both before the clock is read: an inactive license is refused as inactive
    whatever org the request names, an active one of another org as an org
    mismatch; neither refusal touches a table other than the audit log. *)
Theorem validate_status_then_org (request : Request) (w : World) (e : Entitlement) :
  fst (select_entitlement_by_key (license_id request) w) = Some e ->
  (ent_status e <> "active" ->
     exists w', validate request w = (fail_with "License is not active", w') /\
                decision_state w' = decision_state w) /\
  (ent_status e = "active" -> Some (ent_org_id e) <> org_id request ->
     exists w', validate request w = (fail_with "Organization does not match license", w') /\
                decision_state w' = decision_state w).
Proof.
  intros He. pose proof (validate_refused_run request w) as Href. rewrite He in Href.
  split.
  - intros Hst. destruct (String.eqb_spec (ent_status e) "active") as [Heq|_]; [tauto|].
    cbn [negb] in Href. rewrite Href, audit_run. eexists. split; reflexivity.
  - intros Hst Horg. rewrite Hst in Href. cbn [String.eqb Ascii.eqb Bool.eqb negb] in Href.
    rewrite bool_decide_eq_false_2 in Href by assumption. cbn [negb] in Href.
    rewrite Href, audit_run. eexists. split; reflexivity.
Qed.


(** X4. No seats.  Under a monotone clock, when the entitlement checks pass,
    the device has no row and at least [max_seats] rows are still active after
    the scan, validate fails with NoSeatsAvailable and writes no seat row. *)
Theorem validate_refuses_when_full (request : Request) (w : World) (e : Entitlement) :
  clock_monotone ->
  fst (select_entitlement_by_key (license_id request) w) = Some e ->
  entitlement_checks_pass e request (clock (clock_reads w)) = true ->
  existing_row (ent_id e) (device_id request) (store w) = None ->
  ent_max_seats e <=
    active_count_at (clock (own_row_reading (ent_id e) w)) (ent_id e)
      (seat_allocations (store w)) ->
  exists w',
    validate request w =
      (fail_with "No seats available. Maximum active seats in use.", w') /\
    seat_allocations (store w') = seat_allocations (store w) /\
    seat_auto_increment (store w') = seat_auto_increment (store w).
Proof.
  intros Hmono He Hpass Hex Hfull.
  destruct (entitlement_checks_pass_inv _ _ _ Hpass) as (Hst & Horg & Hvu & Hvf).
  rewrite (validate_run _ _ _ He Hst Horg), Hvu, Hvf, Hex. cbn zeta.
  pose proof (validate_active_count_bounds e w _ Hmono (Nat.le_refl _)) as [Hlow _].
  cbn zeta in Hlow.
  destruct (Z.geb_spec (Z.of_nat (length (fst (filterM
              (fun r => is_allocation_active (sa_last_heartbeat_at r))
              (seats_of (ent_id e) (store w))
              {| store := store w; clock_reads := S (S (clock_reads w)) |}))))
              (ent_max_seats e)) as [_|Hlt]; [|lia].
  rewrite audit_run. eexists. split; [reflexivity|]. split; reflexivity.
Qed.

Lemma active_count_at_app (t eid : Z) (rows more : list SeatAllocation) :
  active_count_at t eid (rows ++ more) =
  active_count_at t eid rows + active_count_at t eid more.
Proof. unfold active_count_at. rewrite List.filter_app, length_app. lia. Qed.

(** X5. The insert respects the cap.  Under a monotone clock, a validate for a
    device without a row that succeeds leaves at most [max_seats] rows of the
    entitlement active at any reading taken after its scan. *)
Theorem validate_new_seat_within_cap (request : Request) (w : World) (e : Entitlement)
    (k : nat) :
  clock_monotone ->
  fst (select_entitlement_by_key (license_id request) w) = Some e ->
  entitlement_checks_pass e request (clock (clock_reads w)) = true ->
  existing_row (ent_id e) (device_id request) (store w) = None ->
  (own_row_reading (ent_id e) w <= k)%nat ->
  outcome_get "success" (fst (validate request w)) = Some (JBool true) ->
  active_count_at (clock k) (ent_id e) (seat_allocations (store (snd (validate request w))))
    <= ent_max_seats e.
Proof.
  intros Hmono He Hpass Hex Hk.
  destruct (entitlement_checks_pass_inv _ _ _ Hpass) as (Hst & Horg & Hvu & Hvf).
  rewrite (validate_run _ _ _ He Hst Horg), Hvu, Hvf, Hex. cbn zeta.
  pose proof (validate_active_count_bounds e w k Hmono Hk) as [Hlow _].
  cbn zeta in Hlow.
  destruct (Z.geb_spec (Z.of_nat (length (fst (filterM
              (fun r => is_allocation_active (sa_last_heartbeat_at r))
              (seats_of (ent_id e) (store w))
              {| store := store w; clock_reads := S (S (clock_reads w)) |}))))
              (ent_max_seats e)) as [_|Hlt]; [cbn; discriminate|].
  intros _. rewrite audit_run. unfold execute_insert_seat.
  cbn [snd store seat_allocations set_audit_log set_seat_allocations].
  rewrite active_count_at_app.
  assert (Hone : active_count_at (clock k) (ent_id e)
                   [{| sa_id := seat_auto_increment (store w);
                       sa_entitlement_id := ent_id e;
                       sa_org_id := org_id request;
                       sa_device_id := device_id request;
                       sa_hostname := or_None (hostname request);
                       sa_os := or_None (os request);
                       sa_app_version := or_None (app_version request);
                       sa_client_ip := get_client_ip request;
                       sa_allocated_at := Some (clock (S (clock_reads w)));
                       sa_last_heartbeat_at := Some (clock (S (clock_reads w)));
                       sa_updated_at := None |}] <= 1).
  { unfold active_count_at. cbn [List.filter sa_entitlement_id sa_last_heartbeat_at].
    destruct (_ && _); cbn; lia. }
  lia.
Qed.

(** ** Heartbeat and release: the remaining branches *)

Lemma select_entitlement_for_org_None (request : Request) (status : option string) (w : World) :
  fst (select_entitlement_for_org (license_id request) (org_id request) status w) = None <->
  (forall e, In e (license_entitlements (store w)) ->
             ~ (entitlement_for_org request e /\
                match status with Some s => ent_status e = s | None => True end)).
Proof.
  unfold select_entitlement_for_org, gets, entitlement_for_org. cbn [fst]. split.
  - intros Hnone e Hin [[Hk Ho] Hs].
    assert (Hf : In e (List.filter
              (fun e => bool_decide (Some (ent_license_key e) = license_id request)
                        && bool_decide (Some (ent_org_id e) = org_id request)
                        && match status with
                           | Some s => String.eqb (ent_status e) s
                           | None => true
                           end) (license_entitlements (store w)))).
    { apply filter_In. split; [assumption|].
      rewrite !bool_decide_eq_true_2 by assumption. cbn [andb].
      destruct status; [apply String.eqb_eq, Hs|reflexivity]. }
    destruct (List.filter _ _); [destruct Hf|discriminate].
  - intros Hall. destruct (List.filter _ _) as [|e l] eqn:Hf; [reflexivity|].
    assert (Hin : In e (e :: l)) by (left; reflexivity).
    rewrite <- Hf in Hin. apply filter_In in Hin as [Hin Hp].
    rewrite !andb_true_iff in Hp. destruct Hp as [[Hk Ho] Hs].
    apply bool_decide_eq_true_1 in Hk. apply bool_decide_eq_true_1 in Ho.
    destruct (Hall e Hin). split; [split; assumption|].
    destruct status; [apply String.eqb_eq, Hs|exact I].
Qed.

(** X6. A heartbeat for a row that is active at the instant it is tested
    succeeds and refreshes that row, by id, with the reading taken at the
    start of the call and the request's device data; the table keeps its
    length and one [heartbeat] event with a null payload is handed to the
    audit sink. *)
Theorem heartbeat_refreshes_active_row (request : Request) (w : World)
    (e : Entitlement) (r : SeatAllocation) :
  fst (select_entitlement_for_org (license_id request) (org_id request) (Some "active") w)
    = Some e ->
  fst (select_seat (ent_id e) (device_id request) w) = Some r ->
  active_at (clock (S (clock_reads w))) (sa_last_heartbeat_at r) = true ->
  exists w',
    heartbeat request w = (JObj [("success", JBool true)], w') /\
    seat_allocations (store w') =
      update_seat_where_id (sa_id r) (clock (clock_reads w))
        (or_None (hostname request)) (or_None (os request)) (or_None (app_version request))
        (get_client_ip request) (seat_allocations (store w)) /\
    length (seat_allocations (store w')) = length (seat_allocations (store w)) /\
    audit_log (store w') =
      (audit_log (store w) ++
       if audit_log_writable
       then [{| ae_action := "heartbeat"; ae_entity_type := Some "seat_allocation";
                ae_entity_id := or_None (Some (str (sa_id r))); ae_payload := None;
                ae_client_ip := get_client_ip request |}]
       else [])%list.
Proof.
  intros He Hr Hact. rewrite heartbeat_run, He, Hr. cbn zeta. rewrite Hact, audit_run.
  eexists. split; [reflexivity|].
  cbn [snd store seat_allocations audit_log set_audit_log set_seat_allocations].
  split; [reflexivity|]. split; [apply update_seat_length|reflexivity].
Qed.

(** X7. Heartbeat writes only when it answers success: after any other
    outcome every table, the audit log included, is as it was. *)
Theorem heartbeat_writes_only_on_success (request : Request) (w : World) :
  fst (heartbeat request w) <> JObj [("success", JBool true)] ->
  store (snd (heartbeat request w)) = store w.
Proof.
  rewrite heartbeat_run. cbn zeta.
  destruct (fst (select_entitlement_for_org _ _ _ w)) as [e|]; [|reflexivity].
  destruct (fst (select_seat _ _ w)) as [r|]; [|reflexivity].
  destruct (active_at _ _); [|reflexivity].
  cbn [fst]. congruence.
Qed.

(** X8. The entitlement error of heartbeat is returned exactly when no
    entitlement has the request's key, its org and the status active: an
    unknown key, another org and an inactive license are not told apart. *)
Theorem heartbeat_entitlement_error_iff (request : Request) (w : World) :
  fst (heartbeat request w) =
    fail_with "License not found or not active for this organization" <->
  (forall e, In e (license_entitlements (store w)) -> ~ active_entitlement_for_org request e).
Proof.
  rewrite heartbeat_run. cbn zeta.
  pose proof (select_entitlement_for_org_None request (Some "active") w) as Hiff.
  unfold active_entitlement_for_org.
  destruct (fst (select_entitlement_for_org _ _ _ w)) as [e|].
  - split.
    + destruct (fst (select_seat _ _ w)) as [r|]; [destruct (active_at _ _)|];
        cbn [fst]; discriminate.
    + intros Hall. apply Hiff in Hall. discriminate.
  - split; [intros _; apply Hiff; reflexivity|reflexivity].
Qed.

Lemma filter_length_same {A} (p : A -> bool) (l : list A) :
  length (List.filter p l) = length l -> List.filter p l = l.
Proof.
  induction l as [|x l IH]; cbn; [reflexivity|].
  destruct (p x); cbn.
  - intros H. f_equal. apply IH. lia.
  - pose proof (filter_length_le p l). lia.
Qed.

(** X9. A release for a device that has a row succeeds whatever the status
    and validity window of the entitlement found: every row of that
    (entitlement, device) pair is deleted, all other rows stay in order, the
    device is left without a row and one [release] event is handed to the
    audit sink. *)
Theorem release_removes_the_row (request : Request) (w : World)
    (e : Entitlement) (r : SeatAllocation) :
  fst (select_entitlement_for_org (license_id request) (org_id request) None w) = Some e ->
  fst (select_seat (ent_id e) (device_id request) w) = Some r ->
  exists w',
    release request w = (JObj [("success", JBool true)], w') /\
    seat_allocations (store w') =
      List.filter (fun s => negb (seat_matches (ent_id e) (device_id request) s))
                  (seat_allocations (store w)) /\
    fst (select_seat (ent_id e) (device_id request) w') = None /\
    (length (seat_allocations (store w')) < length (seat_allocations (store w)))%nat /\
    audit_log (store w') =
      (audit_log (store w) ++
       if audit_log_writable
       then [audit_row request "release" (Some "seat_allocation") None
               [("entitlement_id", JInt (ent_id e)); ("device_id", JStr (device_id request))]]
       else [])%list.
Proof.
  intros He Hr. rewrite (release_run _ _ _ He). cbn zeta.
  assert (Hin : In r (seat_allocations (store w)) /\
                seat_matches (ent_id e) (device_id request) r = true).
  { unfold select_seat, gets in Hr. cbn [fst] in Hr.
    apply head_Some_elem_of in Hr. apply list_elem_of_In in Hr.
    apply filter_In in Hr. exact Hr. }
  assert (Hlt : (length (List.filter
                   (fun s => negb (seat_matches (ent_id e) (device_id request) s))
                   (seat_allocations (store w))) < length (seat_allocations (store w)))%nat).
  { destruct Hin as [Hin Hm]. clear Hr He.
    induction (seat_allocations (store w)) as [|s rows IH]; [destruct Hin|].
    cbn [List.filter]. destruct Hin as [->|Hin].
    - rewrite Hm. cbn [negb length]. pose proof (filter_length_le
        (fun s => negb (seat_matches (ent_id e) (device_id request) s)) rows). lia.
    - specialize (IH Hin). destruct (negb _); cbn [length]; lia. }
  destruct (Z.eqb_spec (Z.of_nat (length (seat_allocations (store w))) -
              Z.of_nat (length (List.filter
                (fun s => negb (seat_matches (ent_id e) (device_id request) s))
                (seat_allocations (store w))))) 0) as [Hz|_]; [lia|].
  rewrite audit_run. eexists. split; [reflexivity|].
  cbn [snd store seat_allocations audit_log set_audit_log set_seat_allocations].
  split; [reflexivity|]. split; [|split; [exact Hlt|reflexivity]].
  unfold select_seat, gets.
  cbn [fst store seat_allocations set_audit_log set_seat_allocations].
  rewrite filter_negb_idem. reflexivity.
Qed.

(** X10. A release that does not answer success leaves the whole world as it
    was: no row is deleted and nothing is audited. *)
Theorem release_failure_changes_nothing (request : Request) (w : World) :
  fst (release request w) <> JObj [("success", JBool true)] ->
  snd (release request w) = w.
Proof.
  destruct (fst (select_entitlement_for_org (license_id request) (org_id request) None w))
    as [e|] eqn:He.
  - rewrite (release_run _ _ _ He). cbn zeta.
    destruct (Z.eqb_spec (Z.of_nat (length (seat_allocations (store w))) -
                Z.of_nat (length (List.filter
                  (fun s => negb (seat_matches (ent_id e) (device_id request) s))
                  (seat_allocations (store w))))) 0) as [Hz|_].
    + intros _. cbn [snd]. rewrite filter_length_same by lia.
      rewrite store_eta, world_eta. reflexivity.
    + cbn [fst]. congruence.
  - intros _. unfold release. rewrite bind_run, He. reflexivity.
Qed.

Lemma head_filter_map {A} (p : A -> bool) (g : A -> A) (l : list A) :
  (forall x, p (g x) = p x) ->
  head (List.filter p (map g l)) = option_map g (head (List.filter p l)).
Proof.
  intros Hp. induction l as [|x l IH]; cbn; [reflexivity|].
  rewrite Hp. destruct (p x); cbn; [reflexivity|assumption].
Qed.

Lemma select_entitlement_for_org_with (g : Entitlement -> Entitlement)
    (key org status : option string) (w : World) :
  (forall e, ent_license_key (g e) = ent_license_key e /\ ent_org_id (g e) = ent_org_id e) ->
  (forall e, match status with Some _ => ent_status (g e) = ent_status e | None => True end) ->
  fst (select_entitlement_for_org key org status (with_entitlements g w)) =
  option_map g (fst (select_entitlement_for_org key org status w)).
Proof.
  intros Hg Hs. unfold select_entitlement_for_org, gets. cbn [fst store with_entitlements
    license_entitlements]. apply head_filter_map. intros e.
  destruct (Hg e) as [-> ->]. specialize (Hs e). destruct status; [rewrite Hs|]; reflexivity.
Qed.

(** X11. Release looks neither at the status nor at the validity window of
    the entitlement, and heartbeat does not look at the window: rewriting
    these columns (keeping id, key and org, and for heartbeat the status)
    changes neither the outcome nor what is written. *)
Theorem window_and_status_not_rechecked (g : Entitlement -> Entitlement)
    (request : Request) (w : World) :
  (forall e, ent_id (g e) = ent_id e /\ ent_license_key (g e) = ent_license_key e /\
             ent_org_id (g e) = ent_org_id e) ->
  release request (with_entitlements g w) =
    (fst (release request w), with_entitlements g (snd (release request w))) /\
  ((forall e, ent_status (g e) = ent_status e) ->
   heartbeat request (with_entitlements g w) =
     (fst (heartbeat request w), with_entitlements g (snd (heartbeat request w)))).
Proof.
  intros Hg.
  assert (Hg2 : forall e, ent_license_key (g e) = ent_license_key e /\
                          ent_org_id (g e) = ent_org_id e) by (intros e; destruct (Hg e); tauto).
  assert (Hid : forall e, ent_id (g e) = ent_id e) by (intros e; destruct (Hg e); tauto).
  split.
  - pose proof (select_entitlement_for_org_with g (license_id request) (org_id request)
                  None w Hg2 (fun _ => I)) as Hsel.
    destruct (fst (select_entitlement_for_org (license_id request) (org_id request) None w))
      as [e|] eqn:He; cbn [option_map] in Hsel.
    + rewrite (release_run _ _ _ Hsel), (release_run _ _ _ He), Hid. cbn zeta.
      cbn [store with_entitlements seat_allocations].
      destruct (Z.eqb _ 0); [reflexivity|]. rewrite !audit_run. reflexivity.
    + unfold release. rewrite !bind_run, Hsel, He. reflexivity.
  - intros Hst.
    pose proof (select_entitlement_for_org_with g (license_id request) (org_id request)
                  (Some "active") w Hg2 Hst) as Hsel.
    rewrite !heartbeat_run, Hsel. cbn zeta.
    destruct (fst (select_entitlement_for_org (license_id request) (org_id request)
                     (Some "active") w)) as [e|]; cbn [option_map]; [|reflexivity].
    rewrite Hid.
    change (fst (select_seat (ent_id e) (device_id request) (with_entitlements g w)))
      with (fst (select_seat (ent_id e) (device_id request) w)).
    destruct (fst (select_seat (ent_id e) (device_id request) w)) as [r|]; [|reflexivity].
    cbn [clock_reads with_entitlements].
    destruct (active_at _ _); [|reflexivity].
    rewrite !audit_run. reflexivity.
Qed.

(** X12. The entitlement error of release is returned exactly when no
    entitlement has the request's key and org. *)
Theorem release_entitlement_error_iff (request : Request) (w : World) :
  fst (release request w) = fail_with "License not found for this organization" <->
  (forall e, In e (license_entitlements (store w)) -> ~ entitlement_for_org request e).
Proof.
  pose proof (select_entitlement_for_org_None request None w) as Hiff.
  destruct (fst (select_entitlement_for_org (license_id request) (org_id request) None w))
    as [e|] eqn:He.
  - rewrite (release_run _ _ _ He). cbn zeta. split.
    + destruct (Z.eqb _ 0); cbn [fst]; discriminate.
    + intros Hall.
      assert (Hn : Some e = None)
        by (apply Hiff; intros e' Hin [Hm _]; exact (Hall e' Hin Hm)).
      discriminate.
  - unfold release. rewrite bind_run, He. split; [|reflexivity].
    intros _ e' Hin Hm. apply (proj1 Hiff eq_refl e' Hin). tauto.
Qed.

(** ** How the operations compose *)

Lemma existing_row_is_select_seat (eid : Z) (dev : string) (st : Store) :
  existing_row eid dev st = head (List.filter (seat_matches eid dev) (seat_allocations st)).
Proof.
  unfold existing_row, seats_of, seat_matches.
  induction (seat_allocations st) as [|r rows IH]; cbn; [reflexivity|].
  destruct (Z.eqb (sa_entitlement_id r) eid); cbn; [|assumption].
  destruct (String.eqb (sa_device_id r) dev); cbn; [reflexivity|assumption].
Qed.

Lemma find_head_filter_stronger {A} (p q : A -> bool) (l : list A) (x : A) :
  find p l = Some x -> q x = true -> (forall y, q y = true -> p y = true) ->
  head (List.filter q l) = Some x.
Proof.
  intros Hf Hq Hqp. induction l as [|y l IH]; cbn in *; [discriminate|].
  destruct (p y) eqn:Hp.
  - injection Hf as ->. rewrite Hq. reflexivity.
  - destruct (q y) eqn:Hqy; [rewrite (Hqp y Hqy) in Hp; discriminate|]. auto.
Qed.

(** After a validate that answers success, the device has a row for the
    entitlement whose heartbeat is one of the first two readings of the
    call, and the entitlement is active for the request's org. *)
Lemma validate_success_leaves_row (request : Request) (w : World) :
  outcome_get "success" (fst (validate request w)) = Some (JBool true) ->
  exists e r,
    fst (select_entitlement_by_key (license_id request) w) = Some e /\
    ent_status e = "active" /\ Some (ent_org_id e) = org_id request /\
    license_entitlements (store (snd (validate request w))) = license_entitlements (store w) /\
    fst (select_seat (ent_id e) (device_id request) (snd (validate request w))) = Some r /\
    (sa_last_heartbeat_at r = Some (clock (clock_reads w)) \/
     sa_last_heartbeat_at r = Some (clock (S (clock_reads w)))) /\
    allocation_get "seat_id" (fst (validate request w)) = Some (JStr (str (sa_id r))).
Proof.
  pose proof (validate_refused_run request w) as Href.
  destruct (fst (select_entitlement_by_key (license_id request) w)) as [e|] eqn:He;
    [|rewrite Href; cbn; discriminate].
  destruct (negb (String.eqb (ent_status e) "active")); [rewrite Href; cbn; discriminate|].
  destruct (negb (bool_decide (Some (ent_org_id e) = org_id request)));
    [rewrite Href; cbn; discriminate|].
  destruct Href as [Hst Horg]. rewrite (validate_run _ _ _ He Hst Horg).
  destruct (match ent_valid_until e with Some _ => _ | None => _ end); [cbn; discriminate|].
  destruct (match ent_valid_from e with Some _ => _ | None => _ end); [cbn; discriminate|].
  pose proof (existing_row_is_select_seat (ent_id e) (device_id request) (store w)) as Hsel.
  destruct (existing_row (ent_id e) (device_id request) (store w)) as [r|] eqn:Hex.
  - intros _. exists e.
    exists (refresh_row (clock (clock_reads w)) (or_None (hostname request))
              (or_None (os request)) (or_None (app_version request))
              (get_client_ip request) r).
    do 3 (split; [reflexivity || assumption|]). cbn zeta.
    assert (Hhead : forall w4,
      seat_allocations (store w4) =
        update_seat_where_id (sa_id r) (clock (clock_reads w)) (or_None (hostname request))
          (or_None (os request)) (or_None (app_version request)) (get_client_ip request)
          (seat_allocations (store w)) ->
      fst (select_seat (ent_id e) (device_id request) w4) =
        Some (refresh_row (clock (clock_reads w)) (or_None (hostname request))
                (or_None (os request)) (or_None (app_version request))
                (get_client_ip request) r)).
    { intros w4 Hw4. unfold select_seat, gets. cbn [fst]. rewrite Hw4.
      unfold update_seat_where_id. rewrite head_filter_map.
      - rewrite <- Hsel. cbn [option_map]. rewrite Z.eqb_refl. reflexivity.
      - intros s. destruct (Z.eqb (sa_id s) (sa_id r)); reflexivity. }
    destruct (active_at _ _); rewrite audit_run;
      (split; [reflexivity|]); (split; [apply Hhead; reflexivity|]);
      (split; [left; reflexivity|reflexivity]).
  - destruct (Z.geb _ _); [cbn; discriminate|]. intros _. cbn zeta.
    exists e, (new_seat_row (seat_auto_increment (store w)) (ent_id e) request
                 (clock (S (clock_reads w)))).
    do 3 (split; [reflexivity || assumption|]).
    rewrite audit_run. split; [reflexivity|]. split; [|split; [right|]; reflexivity].
    unfold select_seat, gets, execute_insert_seat.
    cbn [fst snd store seat_allocations set_audit_log set_seat_allocations].
    rewrite List.filter_app.
    symmetry in Hsel. destruct (List.filter _ (seat_allocations (store w))); [|discriminate].
    cbn [app List.filter]. unfold seat_matches, new_seat_row.
    cbn [sa_entitlement_id sa_device_id].
    rewrite Z.eqb_refl, String.eqb_refl. reflexivity.
Qed.

Lemma validate_success_entitlement_for_org (request : Request) (w w' : World) (e : Entitlement)
    (status : option string) :
  fst (select_entitlement_by_key (license_id request) w) = Some e ->
  ent_status e = "active" -> Some (ent_org_id e) = org_id request ->
  license_entitlements (store w') = license_entitlements (store w) ->
  match status with Some s => s = "active" | None => True end ->
  fst (select_entitlement_for_org (license_id request) (org_id request) status w') = Some e.
Proof.
  intros He Hst Horg Hents Hs. unfold select_entitlement_for_org, select_entitlement_by_key,
    gets in *. cbn [fst] in *. rewrite Hents.
  eapply find_head_filter_stronger; [exact He| |].
  - apply find_some in He as [_ Hk]. rewrite Hk, bool_decide_eq_true_2 by assumption.
    cbn [andb]. destruct status as [s|]; [subst s; apply String.eqb_eq, Hst|reflexivity].
  - intros y Hy. rewrite !andb_true_iff in Hy. tauto.
Qed.

(** X13. Validate then heartbeat.  Under a monotone clock, a heartbeat that
    follows a successful validate of the same request succeeds, provided the
    instant at which it tests the row is within the TTL of the validate's
    first reading. *)
Theorem validate_then_heartbeat (request : Request) (w : World) :
  clock_monotone ->
  outcome_get "success" (fst (validate request w)) = Some (JBool true) ->
  clock (S (clock_reads (snd (validate request w)))) - clock (clock_reads w)
    < HEARTBEAT_TTL_MS ->
  fst (heartbeat request (snd (validate request w))) = JObj [("success", JBool true)].
Proof.
  intros Hmono Hok Hlive.
  destruct (validate_success_leaves_row request w Hok)
    as (e & r & He & Hst & Horg & Hents & Hrow & Hhb & _).
  pose proof (validate_success_entitlement_for_org request w _ e (Some "active")
                He Hst Horg Hents eq_refl) as Hsel.
  rewrite heartbeat_run, Hsel, Hrow. cbn zeta.
  assert (Hact : active_at (clock (S (clock_reads (snd (validate request w)))))
                   (sa_last_heartbeat_at r) = true).
  { pose proof (Hmono (clock_reads w) (S (clock_reads w)) ltac:(lia)) as Hle.
    destruct Hhb as [-> | ->]; cbn [active_at]; lia. }
  rewrite Hact. reflexivity.
Qed.

Lemma filter_negb_shorter {A} (p : A -> bool) (l : list A) (x : A) :
  In x l -> p x = true ->
  (length (List.filter (fun y => negb (p y)) l) < length l)%nat.
Proof.
  intros Hin Hp. induction l as [|y l IH]; [destruct Hin|].
  cbn [List.filter]. destruct Hin as [->|Hin].
  - rewrite Hp. cbn [negb length].
    pose proof (filter_length_le (fun y => negb (p y)) l). lia.
  - specialize (IH Hin). destruct (negb (p y)); cbn [length]; lia.
Qed.

(** X14. Validate then release.  A release that follows a successful validate
    of the same request succeeds and leaves the device without a row for the
    entitlement; a heartbeat after it fails with NoAllocation. *)
Theorem validate_then_release (request : Request) (w : World) :
  outcome_get "success" (fst (validate request w)) = Some (JBool true) ->
  let w1 := snd (validate request w) in
  let w2 := snd (release request w1) in
  exists e,
    fst (select_entitlement_by_key (license_id request) w) = Some e /\
    fst (release request w1) = JObj [("success", JBool true)] /\
    fst (select_seat (ent_id e) (device_id request) w2) = None /\
    fst (heartbeat request w2) =
      fail_with "No seat allocation found for this device. Call validate first.".
Proof.
  intros Hok. cbn zeta.
  destruct (validate_success_leaves_row request w Hok)
    as (e & r & He & Hst & Horg & Hents & Hrow & _).
  exists e. split; [exact He|].
  pose proof (validate_success_entitlement_for_org request w _ e None
                He Hst Horg Hents I) as Hsel.
  rewrite (release_run _ _ _ Hsel). cbn zeta.
  assert (Hin : In r (seat_allocations (store (snd (validate request w)))) /\
                seat_matches (ent_id e) (device_id request) r = true).
  { unfold select_seat, gets in Hrow. cbn [fst] in Hrow.
    apply head_Some_elem_of in Hrow. apply list_elem_of_In in Hrow.
    apply filter_In in Hrow. exact Hrow. }
  pose proof (filter_negb_shorter _ _ _ (proj1 Hin) (proj2 Hin)) as Hlt.
  destruct (Z.eqb_spec (Z.of_nat (length (seat_allocations (store (snd (validate request w))))) -
              Z.of_nat (length (List.filter
                (fun s => negb (seat_matches (ent_id e) (device_id request) s))
                (seat_allocations (store (snd (validate request w))))))) 0) as [Hz|_]; [lia|].
  split; [reflexivity|]. rewrite audit_run. cbn [snd].
  assert (Hgone : forall w2,
    seat_allocations (store w2) =
      List.filter (fun s => negb (seat_matches (ent_id e) (device_id request) s))
        (seat_allocations (store (snd (validate request w)))) ->
    fst (select_seat (ent_id e) (device_id request) w2) = None).
  { intros w2 Hw2. unfold select_seat, gets. cbn [fst]. rewrite Hw2, filter_negb_idem.
    reflexivity. }
  split; [apply Hgone; reflexivity|].
  rewrite heartbeat_run. cbn zeta.
  rewrite (validate_success_entitlement_for_org request w _ e (Some "active")
             He Hst Horg) by (try exact Hents; reflexivity).
  rewrite Hgone by reflexivity. reflexivity.
Qed.

(** X29. The seat id a successful validate returns names the row the device
    then holds: the first row of the table for this entitlement and device
    has that id. *)
Theorem validate_seat_id_names_the_row (request : Request) (w : World) :
  outcome_get "success" (fst (validate request w)) = Some (JBool true) ->
  exists e r,
    fst (select_entitlement_by_key (license_id request) w) = Some e /\
    fst (select_seat (ent_id e) (device_id request) (snd (validate request w))) = Some r /\
    sa_entitlement_id r = ent_id e /\
    sa_device_id r = device_id request /\
    allocation_get "seat_id" (fst (validate request w)) = Some (JStr (str (sa_id r))).
Proof.
  intros Hok.
  destruct (validate_success_leaves_row request w Hok)
    as (e & r & He & _ & _ & _ & Hrow & _ & Hid).
  exists e, r. split; [exact He|]. split; [exact Hrow|].
  unfold select_seat, gets in Hrow. cbn [fst] in Hrow.
  apply head_Some_elem_of in Hrow. apply list_elem_of_In in Hrow.
  apply filter_In in Hrow as [_ Hm]. unfold seat_matches in Hm.
  apply andb_true_iff in Hm as [Hent Hdev].
  apply Z.eqb_eq in Hent. apply String.eqb_eq in Hdev. auto.
Qed.

(** ** What the services never write *)

Ltac validate_cases request w e He :=
  let Href := fresh "Href" in
  pose proof (validate_refused_run request w) as Href;
  destruct (fst (select_entitlement_by_key (license_id request) w)) as [e|] eqn:He;
  [ destruct (negb (String.eqb (ent_status e) "active"));
    [ rewrite Href, ?audit_run
    | destruct (negb (bool_decide (Some (ent_org_id e) = org_id request)));
      [ rewrite Href, ?audit_run
      | let Hst := fresh "Hst" in
        let Horg := fresh "Horg" in
        destruct Href as [Hst Horg]; rewrite (validate_run _ _ _ He Hst Horg);
        destruct (match ent_valid_until e with Some _ => _ | None => _ end);
        [ rewrite ?audit_run
        | destruct (match ent_valid_from e with Some _ => _ | None => _ end);
          [ rewrite ?audit_run
          | destruct (existing_row (ent_id e) (device_id request) (store w));
            [ cbn zeta; destruct (active_at _ _); rewrite ?audit_run
            | destruct (Z.geb _ _); cbn zeta; rewrite ?audit_run ] ] ] ] ]
  | rewrite Href, ?audit_run ].

(** X15. A validate that does not answer success writes no seat row and does
    not consume an id. *)
Theorem validate_failure_writes_no_seat (request : Request) (w : World) :
  succeeded (fst (validate request w)) = false ->
  seat_allocations (store (snd (validate request w))) = seat_allocations (store w) /\
  seat_auto_increment (store (snd (validate request w))) = seat_auto_increment (store w).
Proof.
  validate_cases request w e He; cbn; intros Hs; try discriminate; split; reflexivity.
Qed.

(** X16. Every validate call hands exactly one event to the audit sink, tagged
    [validate_success] on a seat allocation when the call succeeds and
    [validate_fail] on an entitlement when it does not, with the client
    address of the request. *)
Theorem validate_audits_every_decision (request : Request) (w : World) :
  exists ev,
    audit_log (store (snd (validate request w))) =
      (audit_log (store w) ++ if audit_log_writable then [ev] else [])%list /\
    ae_action ev =
      (if succeeded (fst (validate request w)) then "validate_success" else "validate_fail") /\
    ae_entity_type ev =
      Some (if succeeded (fst (validate request w)) then "seat_allocation" else "entitlement") /\
    ae_client_ip ev = get_client_ip request.
Proof.
  validate_cases request w e He; eexists; (split; [reflexivity|]); repeat split.
Qed.

(** X17. The license operations never write to the entitlement and device
    tables, and validateTrial never writes to the entitlement and seat
    tables. *)
Theorem services_stay_in_their_tables (request : Request) (w : World) :
  let license_frame (w' : World) :=
    license_entitlements (store w') = license_entitlements (store w) /\
    devices (store w') = devices (store w) in
  license_frame (snd (validate request w)) /\
  license_frame (snd (heartbeat request w)) /\
  license_frame (snd (release request w)) /\
  license_entitlements (store (snd (validate_trial request w))) =
    license_entitlements (store w) /\
  seat_allocations (store (snd (validate_trial request w))) = seat_allocations (store w) /\
  seat_auto_increment (store (snd (validate_trial request w))) =
    seat_auto_increment (store w).
Proof.
  cbn zeta. split; [|split; [|split]].
  - validate_cases request w e He; split; reflexivity.
  - rewrite heartbeat_run. cbn zeta.
    destruct (fst (select_entitlement_for_org _ _ _ w)) as [e|]; [|split; reflexivity].
    destruct (fst (select_seat _ _ w)) as [r|]; [|split; reflexivity].
    destruct (active_at _ _); rewrite ?audit_run; split; reflexivity.
  - destruct (fst (select_entitlement_for_org (license_id request) (org_id request) None w))
      as [e|] eqn:He.
    + rewrite (release_run _ _ _ He). cbn zeta.
      destruct (Z.eqb _ 0); rewrite ?audit_run; split; reflexivity.
    + unfold release. rewrite bind_run, He. split; reflexivity.
  - rewrite validate_trial_run. cbn zeta.
    destruct (devices (store w) !! device_id request) as [device|].
    + destruct (match trial_duration with Some _ => _ | None => _ end);
        rewrite ?audit_run, !upsert_device_run; repeat split; reflexivity.
    + rewrite audit_run, upsert_device_run. repeat split; reflexivity.
Qed.

(** ** Trial gate: known devices *)


(** X19. Continuing trial.  A call for a known device whose trial has not run
    out (no positive duration, or less than the duration since the trial
    start) succeeds with [first_use = false] and the expiry counted from the
    trial start; [trial_used_at] is filled with the time of the update only
    if it was null, and nothing is audited. *)
Theorem validate_trial_continues (request : Request) (w : World) (device : Device) :
  devices (store w) !! device_id request = Some device ->
  (TRIAL_DURATION_SECONDS <= 0 \/
   clock (clock_reads w) - trial_start device < TRIAL_DURATION_SECONDS * 1000) ->
  exists w' row,
    validate_trial request w =
      (JObj [("success", JBool true); ("trial_active", JBool true); ("first_use", JBool false);
             ("expires_at", if Z.gtb TRIAL_DURATION_SECONDS 0
                            then JTime (trial_start device + TRIAL_DURATION_SECONDS * 1000)
                            else JNull)], w') /\
    devices (store w') !! device_id request = Some row /\
    dev_trial_used_at row =
      Some (match dev_trial_used_at device with
            | Some t => t
            | None => clock (S (clock_reads w))
            end) /\
    dev_last_seen_at row = clock (S (clock_reads w)) /\
    audit_log (store w') = audit_log (store w).
Proof.
  intros Hdev Hlive. rewrite validate_trial_run, Hdev. cbn zeta.
  rewrite trial_duration_of_config. fold (trial_start device).
  assert (Hno : match (if Z.gtb TRIAL_DURATION_SECONDS 0
                       then Some (TRIAL_DURATION_SECONDS * 1000) else None) with
                | Some d => Z.geb (clock (clock_reads w) - trial_start device) d
                | None => false
                end = false).
  { destruct (Z.gtb_spec TRIAL_DURATION_SECONDS 0); [lia|reflexivity]. }
  rewrite Hno, upsert_device_run.
  cbn [snd store clock_reads devices audit_log set_devices].
  rewrite Hdev. eexists _, _. split.
  { destruct (Z.gtb TRIAL_DURATION_SECONDS 0); reflexivity. }
  split; [apply lookup_insert_eq|].
  cbn [upserted_row dev_trial_used_at dev_last_seen_at].
  destruct (dev_trial_used_at device); repeat split.
Qed.

(** X20. Without a positive [TRIAL_DURATION_SECONDS] the gate never refuses:
    every call answers success with [trial_active = true] and a null
    [expires_at], however long ago the device was first seen. *)
Theorem validate_trial_without_duration (request : Request) (w : World) :
  TRIAL_DURATION_SECONDS <= 0 ->
  succeeded (fst (validate_trial request w)) = true /\
  outcome_get "trial_active" (fst (validate_trial request w)) = Some (JBool true) /\
  outcome_get "expires_at" (fst (validate_trial request w)) = Some JNull /\
  outcome_get "error" (fst (validate_trial request w)) = None.
Proof.
  intros Hoff. rewrite validate_trial_run. cbn zeta. rewrite trial_duration_of_config.
  assert (Hgt : Z.gtb TRIAL_DURATION_SECONDS 0 = false) by lia. rewrite Hgt.
  destruct (devices (store w) !! device_id request); repeat split.
Qed.


(** X22. Expiry is permanent.  Under a monotone clock and a positive duration,
    once a call for a device has been refused as expired, the next call for
    it is refused as well. *)
Theorem validate_trial_expiry_is_permanent (request : Request) (w : World) :
  clock_monotone ->
  fst (validate_trial request w) = trial_expired_outcome ->
  fst (validate_trial request (snd (validate_trial request w))) = trial_expired_outcome.
Proof.
  intros Hmono. rewrite (validate_trial_run request w). cbn zeta.
  destruct (devices (store w) !! device_id request) as [device|] eqn:Hdev;
    [|cbn; discriminate].
  fold (trial_start device).
  destruct (trial_duration) as [d|] eqn:Hd; [|cbn; discriminate].
  destruct (Z.geb_spec (clock (clock_reads w) - trial_start device) d) as [Hge|_];
    [|cbn; discriminate].
  intros _. rewrite audit_run, upsert_device_run.
  rewrite validate_trial_run. cbn zeta.
  cbn [fst snd store clock_reads devices set_devices set_audit_log].
  rewrite lookup_insert_eq, Hdev, Hd.
  cbn [upserted_row dev_trial_used_at dev_first_seen_at].
  assert (Hsame : match
                    match dev_trial_used_at device with
                    | Some t => Some t
                    | None => None
                    end
                  with
                  | Some t => t
                  | None => dev_first_seen_at device
                  end = trial_start device).
  { unfold trial_start. destruct (dev_trial_used_at device); reflexivity. }
  rewrite Hsame.
  pose proof (Hmono (clock_reads w) (S (S (clock_reads w))) ltac:(lia)) as Hle.
  destruct (Z.geb_spec (clock (S (S (clock_reads w))) - trial_start device) d); [|lia].
  reflexivity.
Qed.

(** ** The client address *)

Lemma lstrip_head (s : string) :
  match lstrip s with
  | String c _ => py_isspace c = false
  | EmptyString => True
  end.
Proof.
  induction s as [|c s IH]; cbn; [exact I|].
  destruct (py_isspace c) eqn:Hc; [assumption|exact Hc].
Qed.

Lemma rstrip_head (s : string) :
  match s, rstrip s with
  | String c _, String c' _ => c' = c
  | _, _ => True
  end.
Proof.
  destruct s as [|c s]; cbn; [exact I|].
  destruct (rstrip s); [destruct (py_isspace c)|]; auto.
Qed.

Lemma rstrip_last (s : string) (c : ascii) :
  last_char (rstrip s) = Some c -> py_isspace c = false.
Proof.
  revert c. induction s as [|c0 s IH]; intros c; cbn [rstrip]; [cbn; discriminate|].
  destruct (rstrip s) as [|c' kept] eqn:Hr.
  - destruct (py_isspace c0) eqn:Hc; cbn; [discriminate|]. intros [= <-]. exact Hc.
  - intros H. apply IH. exact H.
Qed.

Lemma last_char_some (c : ascii) (s : string) : last_char (String c s) <> None.
Proof.
  revert c. induction s as [|c' s IH]; intros c; cbn; [discriminate|]. apply IH.
Qed.

Lemma before_comma_no_comma (s : string) : has_comma (before_comma s) = false.
Proof.
  induction s as [|c s IH]; cbn; [reflexivity|].
  destruct (Ascii.eqb c ","%char) eqn:Hc; cbn; [reflexivity|]. rewrite Hc. exact IH.
Qed.

Lemma lstrip_no_comma (s : string) : has_comma s = false -> has_comma (lstrip s) = false.
Proof.
  induction s as [|c s IH]; cbn; [auto|].
  intros H. apply orb_false_iff in H as [Hc Hs].
  destruct (py_isspace c); [auto|]. cbn. rewrite Hc, Hs. reflexivity.
Qed.

Lemma rstrip_no_comma (s : string) : has_comma s = false -> has_comma (rstrip s) = false.
Proof.
  induction s as [|c s IH]; cbn; [auto|].
  intros H. apply orb_false_iff in H as [Hc Hs]. specialize (IH Hs).
  destruct (rstrip s); [destruct (py_isspace c)|]; cbn in *; rewrite ?Hc; auto.
Qed.

Lemma before_comma_app (entry rest : string) :
  has_comma entry = false ->
  before_comma (entry ++ String ","%char rest) = entry.
Proof.
  induction entry as [|c entry IH]; cbn [has_comma].
  - intros _. change (before_comma (String ","%char rest) = EmptyString). reflexivity.
  - intros H. apply orb_false_iff in H as [Hc Hs].
    change (before_comma (String c (entry ++ String ","%char rest)) = String c entry).
    cbn [before_comma]. rewrite Hc, IH by assumption. reflexivity.
Qed.

(** X23. The resolved client address is never the empty string; when it is
    taken from X-Forwarded-For it contains no comma and neither starts nor
    ends with whitespace. *)
Theorem client_ip_is_clean (forwarded remote_addr : option string) :
  get_client_ip_from forwarded remote_addr <> Some "" /\
  (forall ip, get_client_ip_from forwarded remote_addr = Some ip ->
     Some ip = or_None remote_addr \/
     (has_comma ip = false /\
      match ip with String c _ => py_isspace c = false | EmptyString => False end /\
      match last_char ip with Some c => py_isspace c = false | None => False end)).
Proof.
  assert (Hnone : forall x, or_None x <> Some "").
  { intros [x|]; cbn; [|discriminate].
    destruct (String.eqb_spec x ""); [discriminate|congruence]. }
  unfold get_client_ip_from. destruct (or_None forwarded) as [f|]; cbn zeta.
  - destruct (String.eqb_spec (strip (before_comma f)) "") as [Hblank|Hfirst].
    + split; [apply Hnone|]. intros ip ->. left; reflexivity.
    + split; [congruence|]. intros ip [= <-]. right.
      split; [apply rstrip_no_comma, lstrip_no_comma, before_comma_no_comma|].
      unfold strip in *.
      pose proof (lstrip_head (before_comma f)) as Hl.
      pose proof (rstrip_head (lstrip (before_comma f))) as Hh.
      pose proof (rstrip_last (lstrip (before_comma f))) as Hr.
      destruct (rstrip (lstrip (before_comma f))) as [|c kept] eqn:Hs; [congruence|].
      destruct (lstrip (before_comma f)) as [|c0 l0]; [discriminate|].
      rewrite Hs in Hh. subst c. split; [exact Hl|].
      pose proof (last_char_some c0 kept) as Hsome.
      destruct (last_char (String c0 kept)) as [c1|]; [apply Hr; reflexivity|congruence].
  - split; [apply Hnone|]. intros ip ->. left; reflexivity.
Qed.

(** X24. Only the first comma-separated entry of X-Forwarded-For is looked at:
    if it is not blank it is the client address whatever the socket address
    is, and if it is blank the socket address is used even when later
    entries are not blank. *)
Theorem client_ip_first_entry_only (entry rest : string) (remote_addr : option string) :
  has_comma entry = false ->
  get_client_ip_from (Some (entry ++ String ","%char rest)) remote_addr =
    if String.eqb (strip entry) "" then or_None remote_addr else Some (strip entry).
Proof.
  intros Hentry. unfold get_client_ip_from.
  assert (Hne : or_None (Some (entry ++ String ","%char rest)) =
                Some (entry ++ String ","%char rest)).
  { cbn. destruct entry; reflexivity. }
  rewrite Hne. cbn zeta. rewrite before_comma_app by assumption. reflexivity.
Qed.

(** ** Body check and routes *)

Lemma filter_nil_iff {A} (p : A -> bool) (l : list A) :
  List.filter p l = [] <-> forall x, In x l -> p x = false.
Proof.
  induction l as [|x l IH]; cbn; [tauto|].
  destruct (p x) eqn:Hp.
  - split; [discriminate|]. intros H. specialize (H x (or_introl eq_refl)). congruence.
  - rewrite IH. split; [intros H y [<-|Hy]; auto|intros H y Hy; auto].
Qed.

Lemma validate_body_status (required_fields : list string) (http : HttpRequest)
    (err : JVal) (status : Z) :
  validate_body required_fields http = Some (err, status) -> status = 400.
Proof.
  unfold validate_body. destruct (http_is_json http); cbn [negb]; [|congruence].
  destruct (http_json http) as [| | | | | |data]; try congruence.
  cbn zeta. destruct (List.filter _ _); congruence.
Qed.

(** X25. The body check accepts exactly the JSON requests whose body is an
    object in which every required field is present with a truthy value: a
    field that is null, false, 0, 0.0, an empty string, list or object counts
    as missing. *)
Theorem validate_body_accepts_iff (required_fields : list string) (http : HttpRequest) :
  validate_body required_fields http = None <->
  http_is_json http = true /\
  exists data, http_json http = PDict data /\
    forall f, In f required_fields -> exists v, py_get f data = Some v /\ truthy v = true.
Proof.
  unfold validate_body. destruct (http_is_json http); cbn [negb].
  2: { split; [discriminate|]. intros [H _]. discriminate. }
  destruct (http_json http) as [| | | | | |data];
    try (split; [discriminate|intros [_ [d [H _]]]; discriminate]).
  cbn zeta. split.
  - intros H. split; [reflexivity|]. exists data. split; [reflexivity|].
    assert (Hnil : List.filter (field_missing data) required_fields = [])
      by (destruct (List.filter _ _); [reflexivity|discriminate]).
    intros f Hf. pose proof (proj1 (filter_nil_iff _ _) Hnil f Hf) as Hm.
    unfold field_missing in Hm. destruct (py_get f data) as [v|]; [|discriminate].
    exists v. split; [reflexivity|]. destruct (truthy v); [reflexivity|discriminate].
  - intros [_ [d [[= <-] Hall]]].
    assert (Hnil : List.filter (field_missing data) required_fields = []).
    { apply filter_nil_iff. intros f Hf. destruct (Hall f Hf) as [v [Hv Ht]].
      unfold field_missing. rewrite Hv, Ht. reflexivity. }
    rewrite Hnil. reflexivity.
Qed.

(** X26. A body the check rejects is answered with status 400 and a failure
    outcome; when the body is a JSON object the error names exactly the
    required fields that are missing, in the order they are required. *)
Theorem validate_body_rejection (required_fields : list string) (http : HttpRequest)
    (err : JVal) (status : Z) :
  validate_body required_fields http = Some (err, status) ->
  status = 400 /\
  outcome_get "success" err = Some (JBool false) /\
  (http_is_json http = true ->
   forall data, http_json http = PDict data ->
     let missing := List.filter (field_missing data) required_fields in
     missing <> [] /\
     err = fail_with ("Missing required fields: " ++ String.concat ", " missing) /\
     (forall f, In f missing <-> In f required_fields /\ field_missing data f = true)).
Proof.
  unfold validate_body. destruct (http_is_json http); cbn [negb].
  2: { intros [= <- <-]. split; [reflexivity|]. split; [reflexivity|]. discriminate. }
  destruct (http_json http) as [| | | | | |data];
    try (intros [= <- <-]; split; [reflexivity|]; split; [reflexivity|];
         intros _ d Hd; discriminate Hd).
  cbn zeta. destruct (List.filter (field_missing data) required_fields) as [|m ms] eqn:Hm;
    [discriminate|].
  intros [= <- <-]. split; [reflexivity|]. split; [reflexivity|].
  intros _ d [= <-]. rewrite Hm. split; [discriminate|]. split; [reflexivity|].
  intros f. rewrite <- Hm. apply filter_In.
Qed.

Lemma validate_result_success (request : Request) (w : World) :
  result_success (fst (validate request w)) = succeeded (fst (validate request w)).
Proof. validate_cases request w e He; reflexivity. Qed.

Lemma heartbeat_result_success (request : Request) (w : World) :
  result_success (fst (heartbeat request w)) = succeeded (fst (heartbeat request w)).
Proof.
  rewrite heartbeat_run. cbn zeta.
  destruct (fst (select_entitlement_for_org _ _ _ w)) as [e|]; [|reflexivity].
  destruct (fst (select_seat _ _ w)) as [r|]; [|reflexivity].
  destruct (active_at _ _); reflexivity.
Qed.

Lemma release_result_success (request : Request) (w : World) :
  result_success (fst (release request w)) = succeeded (fst (release request w)).
Proof.
  destruct (fst (select_entitlement_for_org (license_id request) (org_id request) None w))
    as [e|] eqn:He.
  - rewrite (release_run _ _ _ He). cbn zeta. destruct (Z.eqb _ 0); reflexivity.
  - unfold release. rewrite bind_run, He. reflexivity.
Qed.

Lemma validate_trial_result_success (request : Request) (w : World) :
  result_success (fst (validate_trial request w)) = succeeded (fst (validate_trial request w)).
Proof.
  rewrite validate_trial_run. cbn zeta.
  destruct (devices (store w) !! device_id request) as [device|]; [|reflexivity].
  destruct (match trial_duration with Some _ => _ | None => _ end); reflexivity.
Qed.

Lemma route_rejected (check : HttpRequest -> option (JVal * Z))
    (service : Request -> M (Raised JVal))
    (failure_status : Z) (http : HttpRequest) (w : World) (err : JVal) (status : Z) :
  check http = Some (err, status) ->
  route check service failure_status http w = ((err, status), w).
Proof. intros H. unfold route. rewrite H. reflexivity. Qed.

Lemma route_accepted (check : HttpRequest -> option (JVal * Z)) (service : Request -> M JVal)
    (failure_status : Z) (http : HttpRequest) (w : World) (data : list (string * PyVal)) :
  check http = None ->
  http_json http = PDict data ->
  route check (fun request => returning (service request)) failure_status http w =
    ((fst (service (request_of_http data http) w),
      if result_success (fst (service (request_of_http data http) w))
      then 200 else failure_status),
     snd (service (request_of_http data http) w)).
Proof.
  intros H Hd. unfold route, returning. rewrite H, Hd, !bind_run. reflexivity.
Qed.

(** X27. A request the body check rejects is answered with status 400 by each
    of the four routes without the service being run: the world, clock
    included, is as it was. *)
Theorem routes_reject_before_the_service (http : HttpRequest) (w : World) :
  (validate_license_request http <> None ->
     exists err,
       license_validate_route http w = ((err, 400), w) /\
       license_heartbeat_route http w = ((err, 400), w) /\
       license_release_route http w = ((err, 400), w)) /\
  (validate_trial_request http <> None ->
     exists err, trial_validate_route http w = ((err, 400), w)).
Proof.
  split; intros Hrej.
  - destruct (validate_license_request http) as [[err status]|] eqn:Hc; [|congruence].
    pose proof (validate_body_status _ _ _ _ Hc) as ->.
    exists err. unfold license_validate_route, license_heartbeat_route, license_release_route.
    rewrite !(route_rejected _ _ _ _ _ _ _ Hc). auto.
  - destruct (validate_trial_request http) as [[err status]|] eqn:Hc; [|congruence].
    pose proof (validate_body_status _ _ _ _ Hc) as ->.
    exists err. unfold trial_validate_route. rewrite (route_rejected _ _ _ _ _ _ _ Hc).
    reflexivity.
Qed.

(** X28. For a request the body check accepts (fields being strings), each
    route returns the outcome of its service with status 200 exactly when the
    outcome says success; a refusal is 403 from validate, heartbeat and the
    trial gate and 404 from release. *)
Theorem routes_status_follows_outcome (http : HttpRequest) (w : World)
    (data : list (string * PyVal)) :
  http_json http = PDict data ->
  fields_are_strings data = true ->
  let request := request_of_http data http in
  let answer (service : Request -> M JVal) (failure_status : Z) :=
    ((fst (service request w),
      if succeeded (fst (service request w)) then 200 else failure_status),
     snd (service request w)) in
  (validate_license_request http = None ->
     license_validate_route http w = answer validate 403 /\
     license_heartbeat_route http w = answer heartbeat 403 /\
     license_release_route http w = answer release 404) /\
  (validate_trial_request http = None ->
     trial_validate_route http w = answer validate_trial 403).
Proof.
  intros Hd _. cbn zeta. split; intros Hok.
  - unfold license_validate_route, license_heartbeat_route, license_release_route.
    rewrite !(route_accepted _ _ _ _ _ _ Hok Hd).
    rewrite validate_result_success, heartbeat_result_success, release_result_success. auto.
  - unfold trial_validate_route. rewrite (route_accepted _ _ _ _ _ _ Hok Hd).
    rewrite validate_trial_result_success. reflexivity.
Qed.

End Server.

(** ** The audit sink *)

Lemma audit_decision_state (b : bool) (request : Request) (action : string)
    (entity_type entity_id : option string) (payload : Dict) (w : World) :
  decision_state (snd (audit b request action entity_type entity_id payload w)) =
  decision_state w.
Proof. rewrite audit_run. reflexivity. Qed.

Lemma validate_audit_independent (clock : nat -> Z) (ttl : Z) (b1 b2 : bool)
    (request : Request) (w : World) :
  fst (validate clock ttl b1 request w) = fst (validate clock ttl b2 request w) /\
  decision_state (snd (validate clock ttl b1 request w)) =
  decision_state (snd (validate clock ttl b2 request w)).
Proof.
  pose proof (validate_refused_run clock ttl b1 request w) as H1.
  pose proof (validate_refused_run clock ttl b2 request w) as H2.
  destruct (fst (select_entitlement_by_key (license_id request) w)) as [e|] eqn:He.
  - destruct (negb (String.eqb (ent_status e) "active")).
    { rewrite H1, H2. cbn [fst snd]. rewrite !audit_decision_state. auto. }
    destruct (negb (bool_decide (Some (ent_org_id e) = org_id request))).
    { rewrite H1, H2. cbn [fst snd]. rewrite !audit_decision_state. auto. }
    destruct H1 as [Hst Horg].
    rewrite !(validate_run _ _ _ _ _ _ He Hst Horg).
    repeat match goal with
           | |- context [if ?c then _ else _] => destruct c
           | |- context [match existing_row ?a ?b ?c with _ => _ end] =>
               destruct (existing_row a b c)
           end;
      cbn [fst snd]; rewrite !audit_decision_state; auto.
  - rewrite H1, H2. cbn [fst snd]. rewrite !audit_decision_state. auto.
Qed.

(** C9. Whether the INSERT into audit_log goes through or raises, validate,
    heartbeat, release and validateTrial return the same outcome and leave
    the same entitlements, seat allocations, devices and clock position. *)
Theorem audit_failure_never_alters_a_decision (clock : nat -> Z) (ttl trial : Z)
    (request : Request) (w : World) :
  let same (op : bool -> Request -> M JVal) :=
    fst (op true request w) = fst (op false request w) /\
    decision_state (snd (op true request w)) = decision_state (snd (op false request w)) in
  same (validate clock ttl) /\
  same (heartbeat clock ttl) /\
  same release /\
  same (validate_trial clock trial).
Proof.
  cbn zeta. split; [apply validate_audit_independent|]. split; [|split].
  - rewrite !heartbeat_run.
    repeat match goal with
           | |- context [match ?c with _ => _ end] => destruct c
           end; cbn [fst snd]; rewrite ?audit_decision_state; auto.
  - unfold release. rewrite !bind_run.
    destruct (fst (select_entitlement_for_org _ _ _ w)) as [e|]; [|auto].
    rewrite !bind_run. destruct (Z.eqb _ 0); [auto|].
    rewrite !bind_run. cbn [fst snd ret]. rewrite !audit_run. cbn [fst snd]. auto.
  - rewrite !validate_trial_run.
    destruct (devices (store w) !! device_id request) as [device|].
    + destruct (dev_trial_used_at device), (trial_duration trial) as [d|]; cbn zeta;
        try match goal with |- context [if ?c then _ else _] => destruct c end;
        cbn [fst snd]; rewrite ?audit_decision_state; auto.
    + cbn [fst snd]. rewrite !audit_decision_state; auto.
Qed.

(** ** Concrete runs *)



Lemma validate_expiry_before_not_yet_valid_witness :
  fst (select_entitlement_by_key (Some "LIC-ACME-003") fresh_world) = Some future_license /\
  wall_clock 0 < 5000000 /\
  fst (validate wall_clock 600 true (request_of "LIC-ACME-003" "dev-A") fresh_world) =
    fail_with "License is not yet valid".
Proof.
  split; [reflexivity|]. split; [reflexivity|].
  apply (validate_expiry_before_not_yet_valid wall_clock 600 true
           (request_of "LIC-ACME-003" "dev-A") fresh_world future_license 5000000
           eq_refl eq_refl eq_refl eq_refl eq_refl).
Defined.

(** The claim that the not-yet-valid test comes first fails on a license whose
    [valid_from] is in the future and whose [valid_until] is in the past: the
    answer is Expired. *)
Lemma validate_not_yet_valid_first_counterexample :
  fst (select_entitlement_by_key (Some "LIC-ACME-002") fresh_world) = Some inverted_license /\
  ent_status inverted_license = "active" /\
  Some (ent_org_id inverted_license) = org_id (request_of "LIC-ACME-002" "dev-A") /\
  ent_valid_from inverted_license = Some 5000000 /\
  wall_clock (clock_reads fresh_world) < 5000000 /\
  fst (validate wall_clock 600 true (request_of "LIC-ACME-002" "dev-A") fresh_world) =
    fail_with "License has expired" /\
  fst (validate wall_clock 600 true (request_of "LIC-ACME-002" "dev-A") fresh_world) <>
    fail_with "License is not yet valid".
Proof. repeat split; try reflexivity. vm_compute. discriminate. Qed.

Lemma validate_trial_first_use_witness :
  devices (store fresh_world) !! "dev-A" = None /\
  fst (validate_trial wall_clock 3600 true trial_request fresh_world) =
    JObj [("success", JBool true); ("trial_active", JBool true); ("first_use", JBool true);
          ("expires_at", JTime 4600000)] /\
  dev_trial_used_at <$>
    devices (store (snd (validate_trial wall_clock 3600 true trial_request fresh_world)))
      !! "dev-A" = Some (Some 1000001).
Proof.
  destruct (validate_trial_first_use wall_clock 3600 true trial_request fresh_world eq_refl)
    as (w' & row & Hrun & Hrow & Hused & _).
  split; [reflexivity|]. rewrite Hrun. split; [reflexivity|].
  cbn [snd]. change (device_id trial_request) with "dev-A" in Hrow.
  rewrite Hrow. cbn [fmap option_fmap option_map]. rewrite Hused. reflexivity.
Defined.

(** The claim that an unset trial duration leaves [trial_used_at] null on the
    created row fails: with [TRIAL_DURATION_SECONDS = 0] the first call for
    dev-A stores the time of the insert. *)
Lemma validate_trial_unset_duration_counterexample :
  devices (store fresh_world) !! "dev-A" = None /\
  TRIAL_DURATION_MS 0 = None /\
  dev_trial_used_at <$>
    devices (store (snd (validate_trial wall_clock 0 true trial_request fresh_world)))
      !! "dev-A" = Some (Some 1000001) /\
  dev_trial_used_at <$>
    devices (store (snd (validate_trial wall_clock 0 true trial_request fresh_world)))
      !! "dev-A" <> Some None.
Proof. repeat split; try reflexivity. vm_compute. discriminate. Qed.



Lemma release_without_allocation_witness :
  fst (select_entitlement_for_org (Some "LIC-ACME-001") (Some "acme-corp") None held_by_A) =
    Some acme_license /\
  outcome_get "success" (fst (release true (request_of "LIC-ACME-001" "dev-A") held_by_A)) =
    Some (JBool true) /\
  release true (request_of "LIC-ACME-001" "dev-A")
    (snd (release true (request_of "LIC-ACME-001" "dev-A") held_by_A)) =
  (fail_with "No seat allocation found for this device",
   snd (release true (request_of "LIC-ACME-001" "dev-A") held_by_A)) /\
  release true (request_of "LIC-ACME-001" "dev-B") held_by_A =
  (fail_with "No seat allocation found for this device", held_by_A).
Proof.
  split; [reflexivity|]. split; [reflexivity|]. split.
  - apply (proj2 (release_without_allocation true (request_of "LIC-ACME-001" "dev-A")
                    held_by_A acme_license eq_refl)).
    reflexivity.
  - apply (proj1 (release_without_allocation true (request_of "LIC-ACME-001" "dev-B")
                    held_by_A acme_license eq_refl)).
    reflexivity.
Defined.

Lemma validate_trial_first_writer_wins_witness :
  devices (store trial_world) !! "dev-A" = Some known_device /\
  exists row',
    devices (store (snd (validate_trial wall_clock 3600 true trial_request trial_world)))
      !! "dev-A" = Some row' /\
    dev_trial_used_at row' = Some 10 /\
    dev_org_id row' = Some "acme-corp".
Proof.
  split; [reflexivity|].
  destruct (validate_trial_first_writer_wins wall_clock 3600 true trial_request trial_world
              "dev-A" known_device eq_refl) as (row' & Hrow & Hused & Horg & _).
  exists row'. split; [exact Hrow|]. split; [apply Hused|apply Horg]; reflexivity.
Defined.


(** ** Concrete runs of the remaining branches *)

Lemma wall_clock_monotone : clock_monotone wall_clock.
Proof. intros i j Hij. unfold wall_clock. lia. Qed.

Lemma validate_unknown_license_witness :
  (forall e, In e (license_entitlements (store fresh_world)) ->
             Some (ent_license_key e) <> license_id (request_of "LIC-NONE" "dev-A")) /\
  fst (validate wall_clock 600 true (request_of "LIC-NONE" "dev-A") fresh_world) =
    fail_with "License not found" /\
  length (audit_log (store (snd (validate wall_clock 600 true
                                   (request_of "LIC-NONE" "dev-A") fresh_world)))) = 1%nat.
Proof.
  assert (Hnone : forall e, In e (license_entitlements (store fresh_world)) ->
            Some (ent_license_key e) <> license_id (request_of "LIC-NONE" "dev-A")).
  { intros e [<-|[<-|[<-|[]]]]; discriminate. }
  destruct (validate_unknown_license wall_clock 600 true (request_of "LIC-NONE" "dev-A")
              fresh_world Hnone) as (w' & Hrun & _ & Hlog).
  split; [exact Hnone|]. rewrite Hrun. split; [reflexivity|].
  cbn [snd]. rewrite Hlog. reflexivity.
Defined.

Lemma validate_status_then_org_witness :
  fst (select_entitlement_by_key (Some "LIC-ACME-004") office_world) = Some suspended_license /\
  fst (validate wall_clock 600 true (request_as "LIC-ACME-004" "other-org" "dev-A")
         office_world) = fail_with "License is not active" /\
  fst (validate wall_clock 600 true (request_as "LIC-ACME-001" "other-org" "dev-A")
         office_world) = fail_with "Organization does not match license".
Proof.
  split; [reflexivity|]. split.
  - destruct (proj1 (validate_status_then_org wall_clock 600 true
                       (request_as "LIC-ACME-004" "other-org" "dev-A") office_world
                       suspended_license eq_refl)) as (w' & Hrun & _); [discriminate|].
    rewrite Hrun. reflexivity.
  - destruct (proj2 (validate_status_then_org wall_clock 600 true
                       (request_as "LIC-ACME-001" "other-org" "dev-A") office_world
                       acme_license eq_refl)) as (w' & Hrun & _);
      [reflexivity|discriminate|].
    rewrite Hrun. reflexivity.
Defined.


Lemma validate_refuses_when_full_witness :
  existing_row 7 "dev-B" (store held_by_A) = None /\
  ent_max_seats acme_license <=
    active_count_at 600 (wall_clock (own_row_reading 7 held_by_A)) 7
      (seat_allocations (store held_by_A)) /\
  exists w',
    validate wall_clock 600 true (request_of "LIC-ACME-001" "dev-B") held_by_A =
      (fail_with "No seats available. Maximum active seats in use.", w') /\
    seat_allocations (store w') = seat_allocations (store held_by_A) /\
    seat_auto_increment (store w') = seat_auto_increment (store held_by_A).
Proof.
  split; [reflexivity|]. split; [vm_compute; discriminate|].
  apply (validate_refuses_when_full wall_clock 600 true (request_of "LIC-ACME-001" "dev-B")
           held_by_A acme_license wall_clock_monotone eq_refl eq_refl eq_refl).
  vm_compute. discriminate.
Defined.

Lemma validate_new_seat_within_cap_witness :
  outcome_get "success"
    (fst (validate wall_clock 600 true (request_of "LIC-ACME-001" "dev-A") fresh_world)) =
    Some (JBool true) /\
  active_count_at 600 (wall_clock 9) 7
    (seat_allocations
       (store (snd (validate wall_clock 600 true (request_of "LIC-ACME-001" "dev-A")
                      fresh_world)))) <= 1.
Proof.
  split; [reflexivity|].
  apply (validate_new_seat_within_cap wall_clock 600 true (request_of "LIC-ACME-001" "dev-A")
           fresh_world acme_license 9 wall_clock_monotone eq_refl eq_refl eq_refl).
  - vm_compute. lia.
  - reflexivity.
Defined.

Lemma heartbeat_refreshes_active_row_witness :
  fst (select_seat 7 "dev-A" held_by_A) = Some active_A /\
  active_at 600 (wall_clock 1) (sa_last_heartbeat_at active_A) = true /\
  exists w',
    heartbeat wall_clock 600 true (request_of "LIC-ACME-001" "dev-A") held_by_A =
      (JObj [("success", JBool true)], w') /\
    sa_last_heartbeat_at <$> head (seat_allocations (store w')) = Some (Some 1000000).
Proof.
  split; [reflexivity|]. split; [reflexivity|].
  destruct (heartbeat_refreshes_active_row wall_clock 600 true
              (request_of "LIC-ACME-001" "dev-A") held_by_A acme_license active_A
              eq_refl eq_refl eq_refl) as (w' & Hrun & Hseats & _).
  exists w'. split; [exact Hrun|]. rewrite Hseats. reflexivity.
Defined.

Lemma heartbeat_writes_only_on_success_witness :
  fst (heartbeat wall_clock 600 true (request_of "LIC-ACME-001" "dev-A") full_house) <>
    JObj [("success", JBool true)] /\
  store (snd (heartbeat wall_clock 600 true (request_of "LIC-ACME-001" "dev-A") full_house)) =
    store full_house.
Proof.
  assert (H : fst (heartbeat wall_clock 600 true (request_of "LIC-ACME-001" "dev-A")
                     full_house) <> JObj [("success", JBool true)])
    by (vm_compute; discriminate).
  split; [exact H|].
  exact (heartbeat_writes_only_on_success wall_clock 600 true _ _ H).
Defined.

Lemma release_removes_the_row_witness :
  fst (select_entitlement_for_org (Some "LIC-ACME-001") (Some "acme-corp") None
         (with_entitlements lapse held_by_A)) = Some (lapse acme_license) /\
  exists w',
    release true (request_of "LIC-ACME-001" "dev-A") (with_entitlements lapse held_by_A) =
      (JObj [("success", JBool true)], w') /\
    seat_allocations (store w') = [].
Proof.
  split; [reflexivity|].
  destruct (release_removes_the_row true (request_of "LIC-ACME-001" "dev-A")
              (with_entitlements lapse held_by_A) (lapse acme_license) active_A
              eq_refl eq_refl) as (w' & Hrun & Hseats & _).
  exists w'. split; [exact Hrun|]. rewrite Hseats. reflexivity.
Defined.

Lemma release_failure_changes_nothing_witness :
  fst (release true (request_of "LIC-ACME-001" "dev-B") held_by_A) <>
    JObj [("success", JBool true)] /\
  snd (release true (request_of "LIC-ACME-001" "dev-B") held_by_A) = held_by_A.
Proof.
  assert (H : fst (release true (request_of "LIC-ACME-001" "dev-B") held_by_A) <>
              JObj [("success", JBool true)]) by (vm_compute; discriminate).
  split; [exact H|]. exact (release_failure_changes_nothing true _ _ H).
Defined.

Lemma window_and_status_not_rechecked_witness :
  fst (release true (request_of "LIC-ACME-001" "dev-A") (with_entitlements lapse held_by_A)) =
    JObj [("success", JBool true)] /\
  fst (heartbeat wall_clock 600 true (request_of "LIC-ACME-001" "dev-A")
         (with_entitlements rewindow held_by_A)) = JObj [("success", JBool true)].
Proof.
  split.
  - rewrite (proj1 (window_and_status_not_rechecked wall_clock 600 true lapse
                      (request_of "LIC-ACME-001" "dev-A") held_by_A
                      (fun e => conj eq_refl (conj eq_refl eq_refl)))).
    reflexivity.
  - rewrite (proj2 (window_and_status_not_rechecked wall_clock 600 true rewindow
                      (request_of "LIC-ACME-001" "dev-A") held_by_A
                      (fun e => conj eq_refl (conj eq_refl eq_refl)))
               (fun e => eq_refl)).
    reflexivity.
Defined.

Lemma validate_then_heartbeat_witness :
  outcome_get "success"
    (fst (validate wall_clock 600 true (request_of "LIC-ACME-001" "dev-A") fresh_world)) =
    Some (JBool true) /\
  fst (heartbeat wall_clock 600 true (request_of "LIC-ACME-001" "dev-A")
         (snd (validate wall_clock 600 true (request_of "LIC-ACME-001" "dev-A") fresh_world))) =
    JObj [("success", JBool true)].
Proof.
  split; [reflexivity|].
  apply (validate_then_heartbeat wall_clock 600 true (request_of "LIC-ACME-001" "dev-A")
           fresh_world wall_clock_monotone eq_refl).
  vm_compute. reflexivity.
Defined.

Lemma validate_then_release_witness :
  outcome_get "success"
    (fst (validate wall_clock 600 true (request_of "LIC-ACME-001" "dev-A") fresh_world)) =
    Some (JBool true) /\
  fst (release true (request_of "LIC-ACME-001" "dev-A")
         (snd (validate wall_clock 600 true (request_of "LIC-ACME-001" "dev-A") fresh_world))) =
    JObj [("success", JBool true)].
Proof.
  split; [reflexivity|].
  destruct (validate_then_release wall_clock 600 true (request_of "LIC-ACME-001" "dev-A")
              fresh_world eq_refl) as (e & _ & Hrel & _).
  exact Hrel.
Defined.

Lemma validate_failure_writes_no_seat_witness :
  succeeded (fst (validate wall_clock 600 true (request_of "LIC-ACME-001" "dev-B") held_by_A)) =
    false /\
  seat_allocations
    (store (snd (validate wall_clock 600 true (request_of "LIC-ACME-001" "dev-B") held_by_A))) =
    [active_A].
Proof.
  split; [reflexivity|].
  apply (validate_failure_writes_no_seat wall_clock 600 true
           (request_of "LIC-ACME-001" "dev-B") held_by_A eq_refl).
Defined.


Lemma validate_trial_continues_witness :
  devices (store trial_world) !! "dev-A" = Some known_device /\
  wall_clock 0 - trial_start known_device < 3600 * 1000 /\
  fst (validate_trial wall_clock 3600 true trial_request trial_world) =
    JObj [("success", JBool true); ("trial_active", JBool true); ("first_use", JBool false);
          ("expires_at", JTime 3600010)].
Proof.
  split; [reflexivity|]. split; [reflexivity|].
  destruct (validate_trial_continues wall_clock 3600 true trial_request trial_world
              known_device eq_refl) as (w' & row & Hrun & _).
  - right. reflexivity.
  - rewrite Hrun. reflexivity.
Defined.

Lemma validate_trial_without_duration_witness :
  0 <= 0 /\
  outcome_get "trial_active" (fst (validate_trial wall_clock 0 true trial_request trial_world)) =
    Some (JBool true) /\
  outcome_get "expires_at" (fst (validate_trial wall_clock 0 true trial_request trial_world)) =
    Some JNull.
Proof.
  split; [discriminate|].
  destruct (validate_trial_without_duration wall_clock 0 true trial_request trial_world)
    as (_ & Hact & Hexp & _); [discriminate|].
  split; assumption.
Defined.


Lemma validate_trial_expiry_is_permanent_witness :
  fst (validate_trial wall_clock 600 true trial_request trial_world) = trial_expired_outcome /\
  fst (validate_trial wall_clock 600 true trial_request
         (snd (validate_trial wall_clock 600 true trial_request trial_world))) =
    trial_expired_outcome.
Proof.
  split; [reflexivity|].
  apply (validate_trial_expiry_is_permanent wall_clock 600 true trial_request trial_world
           wall_clock_monotone eq_refl).
Defined.

Lemma client_ip_first_entry_only_witness :
  has_comma " 203.0.113.7 " = false /\
  get_client_ip_from (Some " 203.0.113.7 , 10.0.0.2") (Some "10.0.0.2") = Some "203.0.113.7" /\
  get_client_ip_from (Some " , 10.0.0.2") (Some "10.0.0.9") = Some "10.0.0.9".
Proof.
  split; [reflexivity|]. split.
  - exact (client_ip_first_entry_only " 203.0.113.7 " " 10.0.0.2" (Some "10.0.0.2") eq_refl).
  - exact (client_ip_first_entry_only " " " 10.0.0.2" (Some "10.0.0.9") eq_refl).
Defined.

Lemma validate_body_rejection_witness :
  validate_body REQUIRED_LICENSE_FIELDS (post sloppy_body) =
    Some (fail_with "Missing required fields: org_id, device_id", 400) /\
  (forall f, In f ["org_id"; "device_id"] <->
             In f REQUIRED_LICENSE_FIELDS /\
             field_missing [("license_id", PStr "LIC-ACME-001"); ("org_id", PStr "");
                            ("device_id", PInt 0)] f = true).
Proof.
  split; [reflexivity|].
  destruct (validate_body_rejection REQUIRED_LICENSE_FIELDS (post sloppy_body)
              (fail_with "Missing required fields: org_id, device_id") 400 eq_refl)
    as (_ & _ & Hmissing).
  destruct (Hmissing eq_refl _ eq_refl) as (_ & _ & Hiff). exact Hiff.
Defined.

Lemma routes_status_follows_outcome_witness :
  validate_license_request (post good_body) = None /\
  fst (license_validate_route wall_clock 600 true (post good_body) fresh_world) =
    (JObj [("success", JBool true);
           ("allocation", JObj [("seat_id", JStr "3"); ("reattach", JBool false)])], 200) /\
  snd (fst (license_heartbeat_route wall_clock 600 true (post good_body) fresh_world)) = 403 /\
  snd (fst (license_release_route true (post good_body) fresh_world)) = 404.
Proof.
  split; [reflexivity|].
  destruct (routes_status_follows_outcome wall_clock 600 3600 true (post good_body) fresh_world
              _ eq_refl eq_refl) as [Hlic _].
  destruct (Hlic eq_refl) as (Hv & Hh & Hr).
  rewrite Hv, Hh, Hr. repeat split.
Defined.

Lemma validate_seat_id_names_the_row_witness :
  outcome_get "success"
    (fst (validate wall_clock 600 true (request_of "LIC-ACME-001" "dev-A") full_house)) =
    Some (JBool true) /\
  exists r,
    fst (select_seat 7 "dev-A"
           (snd (validate wall_clock 600 true (request_of "LIC-ACME-001" "dev-A") full_house))) =
      Some r /\
    allocation_get "seat_id"
      (fst (validate wall_clock 600 true (request_of "LIC-ACME-001" "dev-A") full_house)) =
      Some (JStr (str (sa_id r))).
Proof.
  split; [reflexivity|].
  destruct (validate_seat_id_names_the_row wall_clock 600 true
              (request_of "LIC-ACME-001" "dev-A") full_house eq_refl)
    as (e & r & He & Hrow & _ & _ & Hid).
  injection He as <-. exists r. split; [exact Hrow|exact Hid].
Defined.
